(** * Earl Box: the upload / list / serve pipeline of [app/file_service.py]

    A shallow embedding of the file service of the Earl Box file-sharing
    application, with the library calls it relies on ([pathlib], [uuid],
    the file system, the SQL session) modelled next to it.

    Conventions.
    - Python [str] is [string], [bytes] is [list byte], [int] is [Z],
      [Optional[T]] is [option T].
    - A [datetime] is the number of microseconds since the epoch, a [Z].
    - The file system is a finite map from absolute locations (the list of
      directory names from the root) to nodes; symbolic links are not
      modelled.
    - Effects are threaded through a state-and-exception monad over the
      [world] (file system, working directory, database). *)

From Stdlib Require Import ZArith List Ascii String Lia Permutation Sorted Bool.
From Stdlib.Strings Require Import Byte.
From stdpp Require Import gmap strings list pretty.

Open Scope string_scope.
Open Scope list_scope.
Open Scope Z_scope.

(** ** Python strings *)

Module Py.

(** [len(s)] *)
Definition len (s : string) : Z := Z.of_nat (String.length s).

(** [s.rfind(c)], scanning a suffix that starts at index [pos]. *)
Fixpoint rfind_from (c : ascii) (s : string) (pos : Z) : Z :=
  match s with
  | EmptyString => -1
  | String a r =>
      let k := rfind_from c r (pos + 1) in
      if 0 <=? k then k else if Ascii.eqb a c then pos else -1
  end.

Definition rfind (c : ascii) (s : string) : Z := rfind_from c s 0.

(** [s[i:]] for [0 <= i]. *)
Fixpoint drop_chars (n : nat) (s : string) : string :=
  match n, s with
  | O, _ => s
  | S _, EmptyString => EmptyString
  | S k, String _ r => drop_chars k r
  end.

Definition slice_from (i : Z) (s : string) : string := drop_chars (Z.to_nat i) s.

(** [s.split(c)] for a one-character separator. *)
Fixpoint split (c : ascii) (s : string) : list string :=
  match s with
  | EmptyString => [EmptyString]
  | String a r =>
      if Ascii.eqb a c then EmptyString :: split c r
      else match split c r with
           | h :: t => String a h :: t
           | [] => [String a EmptyString]
           end
  end.

(** [c in s] *)
Fixpoint contains (c : ascii) (s : string) : bool :=
  match s with
  | EmptyString => false
  | String a r => Ascii.eqb a c || contains c r
  end.

(** [s.startswith(c)] for a one-character prefix. *)
Definition startswith (c : ascii) (s : string) : bool :=
  match s with
  | String a _ => Ascii.eqb a c
  | EmptyString => false
  end.

(** Truthiness of an optional string, as used by [a or b]. *)
Definition truthy (o : option string) : bool :=
  match o with
  | Some (String _ _) => true
  | _ => false
  end.

(** [a or b] on optional strings. *)
Definition or_ (a b : option string) : option string :=
  if truthy a then a else b.

End Py.

(** ** [pathlib.PurePosixPath]

    Parsing, joining, [name] and [suffix] as in CPython 3.12 and 3.13.  A
    leading ["//"], which POSIX lets an implementation treat apart, is read
    as the root. *)

Module Pathlib.

(** A parsed path: whether it is anchored at the root, and its components.
    Empty components and ["."] are dropped by the parser; [".."] is kept. *)
Record path : Type := mkPath { absolute : bool; parts : list string }.

Definition keep_part (s : string) : bool :=
  negb (String.eqb s "") && negb (String.eqb s ".").

(** [Path(s)] *)
Definition Path (s : string) : path :=
  {| absolute := Py.startswith "/" s;
     parts := List.filter keep_part (Py.split "/" s) |}.

(** [p / s]: an absolute right operand replaces the left one. *)
Definition truediv (p : path) (s : string) : path :=
  let q := Path s in
  if absolute q then q
  else {| absolute := absolute p; parts := parts p ++ parts q |}.

(** [p.name]: the final component, [''] when there is none. *)
Definition name (p : path) : string := List.last (parts p) "".

(** [p.suffix]: [name[i:]] for the last dot [i] of the name when
    [0 < i < len(name) - 1], [''] otherwise. *)
Definition suffix (p : path) : string :=
  let n := name p in
  let i := Py.rfind "." n in
  if (0 <? i) && (i <? Py.len n - 1) then Py.slice_from i n else "".

End Pathlib.

(** ** [uuid.uuid4] and [str(UUID)] *)

Module Uuid.

Definition hexchars : list ascii :=
  list_ascii_of_string "0123456789abcdef".

Definition hex_digit (d : Z) : ascii := List.nth (Z.to_nat d) hexchars "0"%char.

(** ['%032x' % n] as a list of characters, most significant nibble first. *)
Definition hex32 (n : Z) : list ascii :=
  List.map (fun i => hex_digit (Z.land (Z.shiftr n (4 * (31 - Z.of_nat i))) 15))
           (List.seq 0 32).

(** [UUID(bytes=b, version=4).int], from the integer value of the 16 bytes. *)
Definition uuid4_int (random : Z) : Z :=
  let i0 := random mod 2 ^ 128 in
  let i1 := Z.land i0 (Z.lnot (Z.shiftl 49152 48)) in
  let i2 := Z.lor i1 (Z.shiftl 32768 48) in
  let i3 := Z.land i2 (Z.lnot (Z.shiftl 61440 64)) in
  Z.lor i3 (Z.shiftl 4 76).

(** [str(u)]: the 8-4-4-4-12 rendering. *)
Definition str (n : Z) : string :=
  let h := hex32 n in
  let dash := ["-"%char] in
  string_of_list_ascii
    (List.firstn 8 h ++ dash ++
     List.firstn 4 (List.skipn 8 h) ++ dash ++
     List.firstn 4 (List.skipn 12 h) ++ dash ++
     List.firstn 4 (List.skipn 16 h) ++ dash ++
     List.skipn 20 h).

End Uuid.

(** ** Exceptions and the effect monad *)

Inductive exn : Type :=
| FileNotFoundError
| FileExistsError
| IsADirectoryError
| OSError
| OverflowError
| IntegrityError
| OperationalError.

Inductive result (A : Type) : Type :=
| Ok (a : A)
| Raise (e : exn).

Arguments Ok {A} a.
Arguments Raise {A} e.

(** A node of the file system. *)
Inductive node : Type :=
| Dir
| File (content : list byte).

(** ** [app/models.py] *)

(** [UploadedFile]; the primary key [id] is spelled [id_]. *)
Record UploadedFile : Type := mkUploadedFile {
  id_ : option Z;
  original_filename : string;
  stored_filename : string;
  file_size : Z;
  content_type : string;
  upload_timestamp : Z;
  public_url : string
}.

Record FileUploadStats : Type := mkFileUploadStats {
  total_files : Z;
  total_size_bytes : Z
}.

(** The state the service acts on: the file system with the process's
    working directory, and the [uploaded_files] table with its rows in
    insertion order and the next primary key. *)
Record world : Type := mkWorld {
  files : gmap (list string) node;
  cwd : list string;
  rows : list UploadedFile;
  next_id : Z
}.

(** What a single call draws from its environment: the 16 random bytes of
    [uuid4], the clock, the MIME table, and the faults the operating system
    or the database may raise during the call. *)
Record env : Type := mkEnv {
  urandom : Z;
  utcnow : Z;
  guess_type : string -> option string;
  write_fault : bool;
  db_fault : bool;
  unlink_fault : bool
}.

Definition M (A : Type) : Type := world -> result A * world.

Definition ret {A} (a : A) : M A := fun w => (Ok a, w).

Definition raise {A} (e : exn) : M A := fun w => (Raise e, w).

Definition bind {A B} (m : M A) (k : A -> M B) : M B :=
  fun w =>
    match m w with
    | (Ok a, w') => k a w'
    | (Raise e, w') => (Raise e, w')
    end.

(** [try: body except Exception: handler]; the effects of [body] up to the
    exception stay. *)
Definition try_except {A} (body : M A) (handler : exn -> M A) : M A :=
  fun w =>
    match body w with
    | (Ok a, w') => (Ok a, w')
    | (Raise e, w') => handler e w'
    end.

#[global] Instance M_ret : MRet M := @ret.
#[global] Instance M_bind : MBind M := fun A B k m => bind m k.

(** ** The file system *)

Module Os.

(** One step of path resolution from location [l]. *)
Definition step (l : list string) (c : string) : list string :=
  if String.eqb c ".." then List.removelast l else l ++ [c].

(** Resolve the components [comps] from [l]; every location a step starts
    from has to be a directory. *)
Fixpoint walk (t : gmap (list string) node) (l : list string)
         (comps : list string) : option (list string) :=
  match comps with
  | [] => Some l
  | c :: r =>
      match t !! l with
      | Some Dir => walk t (step l c) r
      | _ => None
      end
  end.

Definition locate (w : world) (p : Pathlib.path) : option (list string) :=
  walk (files w) (if Pathlib.absolute p then [] else cwd w) (Pathlib.parts p).

(** [os.stat(p)], [None] when it fails. *)
Definition stat (w : world) (p : Pathlib.path) : option node :=
  match locate w p with
  | Some l => files w !! l
  | None => None
  end.

Definition set_files (t : gmap (list string) node) (w : world) : world :=
  {| files := t; cwd := cwd w; rows := rows w; next_id := next_id w |}.

(** [p.exists()] *)
Definition exists_ (p : Pathlib.path) : M bool :=
  fun w => (Ok (match stat w p with Some _ => true | None => false end), w).

(** [p.mkdir(exist_ok=True)] *)
Definition mkdir_exist_ok (p : Pathlib.path) : M unit :=
  fun w =>
    match locate w p with
    | None => (Raise FileNotFoundError, w)
    | Some l =>
        match files w !! l with
        | Some Dir => (Ok tt, w)
        | Some (File _) => (Raise FileExistsError, w)
        | None => (Ok tt, set_files (<[l := Dir]> (files w)) w)
        end
    end.

(** [open(p, "wb")]: creates or truncates the file; the handle is the
    location of the file. *)
Definition open_wb (p : Pathlib.path) : M (list string) :=
  fun w =>
    match locate w p with
    | None => (Raise FileNotFoundError, w)
    | Some l =>
        match files w !! l with
        | Some Dir => (Raise IsADirectoryError, w)
        | _ => (Ok l, set_files (<[l := File []]> (files w)) w)
        end
    end.

(** [f.write(content)] on a freshly opened handle, then closing it. *)
Definition write (e : env) (f : list string) (content : list byte) : M unit :=
  fun w =>
    if write_fault e then (Raise OSError, w)
    else (Ok tt, set_files (<[f := File content]> (files w)) w).

(** [p.unlink()] *)
Definition unlink (e : env) (p : Pathlib.path) : M unit :=
  fun w =>
    if unlink_fault e then (Raise OSError, w)
    else
      match locate w p with
      | None => (Raise FileNotFoundError, w)
      | Some l =>
          match files w !! l with
          | Some (File _) => (Ok tt, set_files (delete l (files w)) w)
          | Some Dir => (Raise IsADirectoryError, w)
          | None => (Raise FileNotFoundError, w)
          end
      end.

(** [p.read_bytes()], [None] when [p] is not a readable regular file. *)
Definition read_bytes (w : world) (p : Pathlib.path) : option (list byte) :=
  match stat w p with
  | Some (File c) => Some c
  | _ => None
  end.

End Os.

(** ** The SQL session *)

Module Sql.

Definition set_rows (l : list UploadedFile) (n : Z) (w : world) : world :=
  {| files := files w; cwd := cwd w; rows := l; next_id := n |}.

Definition with_id (i : Z) (r : UploadedFile) : UploadedFile :=
  {| id_ := Some i;
     original_filename := original_filename r;
     stored_filename := stored_filename r;
     file_size := file_size r;
     content_type := content_type r;
     upload_timestamp := upload_timestamp r;
     public_url := public_url r |}.

(** Is there a row with this [stored_filename] (the column is [unique])? *)
Definition has_stored (s : string) (l : list UploadedFile) : bool :=
  List.existsb (fun r => String.eqb (stored_filename r) s) l.

(** [session.add(r); session.commit(); session.refresh(r)]: the row gets
    the next primary key; a fault or a uniqueness violation raises and
    leaves the table as it was. *)
Definition add_commit_refresh (e : env) (r : UploadedFile) : M UploadedFile :=
  fun w =>
    if db_fault e then (Raise OperationalError, w)
    else if has_stored (stored_filename r) (rows w) then (Raise IntegrityError, w)
    else
      let r' := with_id (next_id w) r in
      (Ok r', set_rows (rows w ++ [r']) (next_id w + 1) w).

(** The database engine's [ORDER BY key DESC].  The query names one key
    and nothing else, so the place of rows with equal keys is up to the
    engine. *)
Class Engine : Type :=
  order_by_desc : (UploadedFile -> Z) -> list UploadedFile -> list UploadedFile.

(** What SQL promises of [ORDER BY key DESC]: the same rows, arranged so
    that the key never increases. *)
Class EngineLaws (E : Engine) : Prop := {
  order_by_desc_perm : forall k l, Permutation (order_by_desc k l) l;
  order_by_desc_sorted :
    forall k l, StronglySorted (fun a b => k b <= k a) (order_by_desc k l)
}.

(** Insertion of [x] into a list sorted by decreasing key; [before x y]
    decides whether [x] goes in front of [y]. *)
Fixpoint insert_desc (before : Z -> Z -> bool) (k : UploadedFile -> Z)
         (x : UploadedFile) (l : list UploadedFile) : list UploadedFile :=
  match l with
  | [] => [x]
  | y :: r => if before (k x) (k y) then x :: y :: r
              else y :: insert_desc before k x r
  end.

Definition sort_desc (before : Z -> Z -> bool) (k : UploadedFile -> Z)
           (l : list UploadedFile) : list UploadedFile :=
  List.fold_right (insert_desc before k) [] l.

(** An engine that lists rows of equal key in the order of insertion. *)
Definition earlier_first : Engine := sort_desc Z.geb.

(** An engine that lists rows of equal key latest first. *)
Definition later_first : Engine := sort_desc Z.gtb.

End Sql.

(** ** Python floats, as far as [format_file_size] uses them *)

Module Float.

(** A finite double that is an integer multiple of a power of two:
    [mant * 2 ^ expo]. *)
Record float : Type := mkFloat { mant : Z; expo : Z }.

(** [float(n)]: the nearest double, ties to even, [OverflowError] beyond
    the range of doubles. *)
Definition of_int (n : Z) : result float :=
  let a := Z.abs n in
  let bits := Z.log2 a + 1 in
  if bits <=? 53 then Ok {| mant := n; expo := 0 |}
  else
    let sh := bits - 53 in
    let q := Z.shiftr a sh in
    let r := Z.land a (Z.ones sh) in
    let half := Z.shiftl 1 (sh - 1) in
    let q' := if (half <? r) || ((r =? half) && Z.odd q) then q + 1 else q in
    if 2 ^ 1024 <=? q' * 2 ^ sh then Raise OverflowError
    else Ok {| mant := Z.sgn n * q'; expo := sh |}.

(** [x >= 1024] *)
Definition ge_1024 (x : float) : bool :=
  if 0 <=? expo x then 1024 <=? mant x * 2 ^ expo x
  else 1024 * 2 ^ (- expo x) <=? mant x.

(** [x / 1024]: exact, a change of exponent (the service divides only
    values that are at least 1024, so nothing underflows). *)
Definition div_1024 (x : float) : float :=
  {| mant := mant x; expo := expo x - 10 |}.

(** The number of tenths nearest to [|x|], ties to even. *)
Definition tenths (x : float) : Z :=
  let a := Z.abs (mant x) in
  if 0 <=? expo x then 10 * a * 2 ^ expo x
  else
    let den := 2 ^ (- expo x) in
    let q := (10 * a) / den in
    let r := (10 * a) mod den in
    if (den <? 2 * r) || ((2 * r =? den) && Z.odd q) then q + 1 else q.

(** [f"{x:.1f}"] *)
Definition format_1f (x : float) : string :=
  let t := tenths x in
  (if mant x <? 0 then "-" else "") +:+
  pretty (t / 10) +:+ "." +:+ pretty (t mod 10).

End Float.

(** ** Request objects *)

Module fastapi.
(** [fastapi.UploadFile]: the fields the service reads. *)
Record UploadFile : Type := mkUploadFile {
  filename : option string;
  content_type : option string;
  file : list byte
}.
End fastapi.

Module nicegui.
(** [nicegui.events.UploadEventArguments]: the fields the service reads. *)
Record UploadEventArguments : Type := mkUploadEventArguments {
  name : option string;
  type : option string;
  content : list byte
}.
End nicegui.

(** ** [app/file_service.py] *)

Definition UPLOADS_DIR : Pathlib.path := Pathlib.Path "uploads".

Definition MAX_FILE_SIZE : Z := 300 * 1024 * 1024.

(** [len(content)] on [bytes] *)
Definition len_bytes (content : list byte) : Z := Z.of_nat (List.length content).

Definition ensure_uploads_directory : M unit := Os.mkdir_exist_ok UPLOADS_DIR.

Definition generate_unique_filename (e : env) (original_filename : string) : string :=
  let file_extension := Pathlib.suffix (Pathlib.Path original_filename) in
  let unique_id := Uuid.str (Uuid.uuid4_int (urandom e)) in
  unique_id +:+ file_extension.

Definition get_file_stats : M FileUploadStats :=
  fun w =>
    let files := rows w in
    (Ok {| total_files := Z.of_nat (List.length files);
           total_size_bytes := List.fold_right Z.add 0 (List.map file_size files) |},
     w).

(** [a or b or "application/octet-stream"] *)
Definition resolve_content_type (declared guessed : option string) : string :=
  match Py.or_ (Py.or_ declared guessed) (Some "application/octet-stream") with
  | Some s => s
  | None => "application/octet-stream"
  end.

Definition save_upload_event (e : env) (upload_event : nicegui.UploadEventArguments)
  : M (option UploadedFile) :=
  match nicegui.name upload_event with
  | None => ret None
  | Some name =>
      let content := nicegui.content upload_event in
      if len_bytes content >? MAX_FILE_SIZE then ret None
      else
        ensure_uploads_directory;;
        let stored_filename := generate_unique_filename e name in
        let file_path := Pathlib.truediv UPLOADS_DIR stored_filename in
        try_except
          (f ← Os.open_wb file_path;
           Os.write e f content;;
           let content_type :=
             resolve_content_type (nicegui.type upload_event) (guess_type e name) in
           let uploaded_file :=
             {| id_ := None;
                original_filename := name;
                stored_filename := stored_filename;
                file_size := len_bytes content;
                content_type := content_type;
                upload_timestamp := utcnow e;
                public_url := "/files/" +:+ stored_filename |} in
           r ← Sql.add_commit_refresh e uploaded_file;
           ret (Some r))
          (fun _ =>
             b ← Os.exists_ file_path;
             (if b : bool then Os.unlink e file_path else ret tt);;
             ret None)
  end.

Definition save_uploaded_file (e : env) (upload_file : fastapi.UploadFile)
  : M (option UploadedFile) :=
  match fastapi.filename upload_file with
  | None => ret None
  | Some filename =>
      let content := fastapi.file upload_file in
      if len_bytes content >? MAX_FILE_SIZE then ret None
      else
        ensure_uploads_directory;;
        let stored_filename := generate_unique_filename e filename in
        let file_path := Pathlib.truediv UPLOADS_DIR stored_filename in
        try_except
          (f ← Os.open_wb file_path;
           Os.write e f content;;
           let content_type :=
             resolve_content_type (fastapi.content_type upload_file)
                                  (guess_type e filename) in
           let uploaded_file :=
             {| id_ := None;
                original_filename := filename;
                stored_filename := stored_filename;
                file_size := len_bytes content;
                content_type := content_type;
                upload_timestamp := utcnow e;
                public_url := "/files/" +:+ stored_filename |} in
           r ← Sql.add_commit_refresh e uploaded_file;
           ret (Some r))
          (fun _ =>
             b ← Os.exists_ file_path;
             (if b : bool then Os.unlink e file_path else ret tt);;
             ret None)
  end.

Definition get_file_path (stored_filename : string) : M (option Pathlib.path) :=
  let file_path := Pathlib.truediv UPLOADS_DIR stored_filename in
  b ← Os.exists_ file_path;
  if b : bool then ret (Some file_path) else ret None.

Definition get_all_uploaded_files `{Sql.Engine} : M (list UploadedFile) :=
  fun w => (Ok (Sql.order_by_desc upload_timestamp (rows w)), w).

Definition size_names : list string := ["B"; "KB"; "MB"; "GB"; "TB"].

(** The [while] loop of [format_file_size], run for at most [fuel] rounds. *)
Fixpoint size_loop (fuel : nat) (size_float : Float.float) (i : Z)
  : Float.float * Z :=
  match fuel with
  | O => (size_float, i)
  | S k =>
      if Float.ge_1024 size_float && (i <? Z.of_nat (List.length size_names) - 1)
      then size_loop k (Float.div_1024 size_float) (i + 1)
      else (size_float, i)
  end.

Definition format_file_size (size_bytes : Z) : result string :=
  if size_bytes =? 0 then Ok "0 B"
  else
    match Float.of_int size_bytes with
    | Raise e => Raise e
    | Ok x =>
        let '(size_float, i) := size_loop (List.length size_names) x 0 in
        Ok (Float.format_1f size_float +:+ " " +:+
            List.nth (Z.to_nat i) size_names "")
    end.

(** The claim's wording of "extension": the substring from the last ['.']
    on, the dot included; empty when there is no ['.']. *)
Definition spec_extension (s : string) : string :=
  let i := Py.rfind "." s in
  if i <? 0 then "" else Py.slice_from i s.

(** The characters of a rendered UUID. *)
Definition uuid_char (c : ascii) : Prop := In c (Uuid.hexchars ++ ["-"%char]).

(** The random token of a call. *)
Definition token (e : env) : string := Uuid.str (Uuid.uuid4_int (urandom e)).

(** Where a path leads, compared with where the uploads directory is. *)
Definition inside_uploads (w : world) (p : Pathlib.path) : Prop :=
  match Os.locate w UPLOADS_DIR, Os.locate w p with
  | Some base, Some l => base `prefix_of` l
  | _, _ => False
  end.

(** A listing keeps rows of equal key in the order of the table. *)
Definition stable (k : UploadedFile -> Z) (table listing : list UploadedFile) : Prop :=
  forall t, List.filter (fun r => k r =? t) listing
            = List.filter (fun r => k r =? t) table.

(** The event an [UploadFile] corresponds to. *)
Definition as_event (u : fastapi.UploadFile) : nicegui.UploadEventArguments :=
  {| nicegui.name := fastapi.filename u;
     nicegui.type := fastapi.content_type u;
     nicegui.content := fastapi.file u |}.

(** The row an upload of [content] under [filename] is recorded as, with
    primary key [i]. *)
Definition stored_record (e : env) (filename : string) (declared : option string)
           (content : list byte) (i : option Z) : UploadedFile :=
  {| id_ := i;
     original_filename := filename;
     stored_filename := generate_unique_filename e filename;
     file_size := len_bytes content;
     content_type := resolve_content_type declared (guess_type e filename);
     upload_timestamp := utcnow e;
     public_url := "/files/" +:+ generate_unique_filename e filename |}.

(** The location of the uploads directory and of a blob in it, for a
    process working in [cwd w]. *)
Definition uploads_loc (w : world) : list string := cwd w ++ ["uploads"].

Definition blob_loc (w : world) (s : string) : list string :=
  cwd w ++ ["uploads"; s].

(** The blob of name [s] can be written in [w]: the working directory
    exists, ["uploads"] is not a regular file, and no directory sits at the
    blob's place. *)
Definition can_store (w : world) (s : string) : Prop :=
  files w !! cwd w = Some Dir
  /\ (forall c, files w !! uploads_loc w <> Some (File c))
  /\ files w !! blob_loc w s <> Some Dir.

(** ** Sample environments and worlds *)

Module Sample.

(** A call without faults, drawing the random bytes [rand] at time [now]. *)
Definition call (rand now : Z) : env :=
  {| urandom := rand; utcnow := now; guess_type := fun _ => None;
     write_fault := false; db_fault := false; unlink_fault := false |}.

(** A call whose 16 random bytes are all zero, at time [now]. *)
Definition quiet (now : Z) : env := call 0 now.

(** The same call, with the database refusing the insert. *)
Definition db_down (now : Z) : env :=
  {| urandom := 0; utcnow := now; guess_type := fun _ => None;
     write_fault := false; db_fault := true; unlink_fault := false |}.

(** A server started in [/srv]: an empty [uploads] directory, a file next
    to it, and [/etc/passwd]. *)
Definition srv : world :=
  {| files := list_to_map
       [ ([], Dir);
         (["srv"], Dir);
         (["srv"; "uploads"], Dir);
         (["srv"; "uploads"; "sub"], Dir);
         (["srv"; "uploads"; "note.txt"], File ["n"%byte]);
         (["srv"; "secret.txt"], File ["k"%byte]);
         (["etc"], Dir);
         (["etc"; "passwd"], File ["r"%byte]) ];
     cwd := ["srv"];
     rows := [];
     next_id := 1 |}.

(** The upload of the specification's scenario. *)
Definition hello : fastapi.UploadFile :=
  {| fastapi.filename := Some "test.txt";
     fastapi.content_type := Some "text/plain";
     fastapi.file := ["H"; "e"; "l"; "l"; "o"; " "; "E"; "a"; "r"; "l"; " ";
                      "B"; "o"; "x"; "!"]%byte |}.

(** Another upload named like [hello], with other bytes. *)
Definition unnamed_txt : fastapi.UploadFile :=
  {| fastapi.filename := Some "test.txt";
     fastapi.content_type := None;
     fastapi.file := ["n"; "e"; "w"]%byte |}.

(** An upload whose filename is the empty string. *)
Definition unnamed : fastapi.UploadFile :=
  {| fastapi.filename := Some "";
     fastapi.content_type := None;
     fastapi.file := ["d"; "a"; "t"; "a"]%byte |}.

(** The world after two uploads made at the same instant. *)
Definition twice : world :=
  snd (save_uploaded_file (call 2 7) hello
         (snd (save_uploaded_file (call 1 7) hello srv))).

(** The world after three uploads at three successive instants. *)
Definition thrice : world :=
  snd (save_uploaded_file (call 3 9) hello
         (snd (save_uploaded_file (call 2 8) hello
                (snd (save_uploaded_file (call 1 7) hello srv))))).

End Sample.

(** ** [app/earl_box.py]: the public file route *)

(** What [serve_file] answers with: a [FileResponse] for a path, or the
    [HTTPException] it raises, kept as a value. *)
Inductive response : Type :=
| FileResponse (path : Pathlib.path)
| HTTPException (status_code : Z) (detail : string).

Definition serve_file (filename : string) : M response :=
  file_path ← get_file_path filename;
  match file_path : option Pathlib.path with
  | None => ret (HTTPException 404 "File not found")
  | Some p => ret (FileResponse p)
  end.

(** [s] without the prefix [pre], when it starts with it. *)
Fixpoint strip_prefix (pre s : string) : option string :=
  match pre, s with
  | EmptyString, _ => Some s
  | String a p, String b r => if Ascii.eqb a b then strip_prefix p r else None
  | String _ _, EmptyString => None
  end.

(** The route ["/files/{filename}"]: the parameter is one non-empty path
    segment, so it holds no ['/']. *)
Definition route_files (url_path : string) : option string :=
  match strip_prefix "/files/" url_path with
  | Some (String a r) =>
      if Py.contains "/" (String a r) then None else Some (String a r)
  | _ => None
  end.

(** ** Histories *)

(** The world after a series of calls of [save_uploaded_file], each with its
    own environment; a call that raises leaves its effects behind and the
    next one runs. *)
Fixpoint run_uploads (calls : list (env * fastapi.UploadFile)) (w : world) : world :=
  match calls with
  | [] => w
  | (e, u) :: rest => run_uploads rest (snd (save_uploaded_file e u w))
  end.

(** Two worlds with the same working directory and the same table. *)
Definition same_table (w w' : world) : Prop :=
  cwd w' = cwd w /\ rows w' = rows w /\ next_id w' = next_id w.

(** The table keeps its keys apart: stored names and primary keys are
    pairwise distinct, and every primary key is below the next one. *)
Definition keys_apart (w : world) : Prop :=
  List.NoDup (List.map stored_filename (rows w))
  /\ List.NoDup (List.map id_ (rows w))
  /\ Forall (fun r => exists i, id_ r = Some i /\ i < next_id w) (rows w).

(** Every recorded size is the size of some accepted content. *)
Definition sizes_bounded (w : world) : Prop :=
  Forall (fun r => 0 <= file_size r <= MAX_FILE_SIZE) (rows w).

(** * Facts about strings *)

(** Case analysis on every integer comparison of the goal. *)
Ltac case_cmp :=
  repeat match goal with
         | |- context [?a <=? ?b] => destruct (Z.leb_spec a b)
         | |- context [?a <? ?b] => destruct (Z.ltb_spec a b)
         | |- context [?a >? ?b] => rewrite (Z.gtb_ltb a b)
         | |- context [?a =? ?b] => destruct (Z.eqb_spec a b)
         | H : context [?a <=? ?b] |- _ => destruct (Z.leb_spec a b)
         | H : context [?a <? ?b] |- _ => destruct (Z.ltb_spec a b)
         end.

Section StringFacts.

Variable c : ascii.

Lemma contains_app (a b : string) :
  Py.contains c (a +:+ b) = Py.contains c a || Py.contains c b.
Proof.
  induction a as [|x a IH]; simpl; [reflexivity|].
  rewrite IH. apply orb_assoc.
Qed.

Lemma contains_drop_chars (n : nat) (s : string) :
  Py.contains c s = false -> Py.contains c (Py.drop_chars n s) = false.
Proof.
  revert s. induction n as [|n IH]; intros s H; [exact H|].
  destruct s as [|x s]; simpl; [reflexivity|].
  simpl in H. apply orb_false_iff in H as [_ H]. auto.
Qed.

Lemma split_nonempty (s : string) : Py.split c s <> [].
Proof.
  destruct s as [|x s]; simpl; [discriminate|].
  destruct (Ascii.eqb x c); [discriminate|].
  destruct (Py.split c s); discriminate.
Qed.

Lemma split_no_sep (s : string) :
  Forall (fun x => Py.contains c x = false) (Py.split c s).
Proof.
  induction s as [|x s IH]; simpl.
  - constructor; [reflexivity|constructor].
  - destruct (Ascii.eqb x c) eqn:E.
    + constructor; [reflexivity|exact IH].
    + destruct (Py.split c s) as [|h t].
      * constructor; [simpl; rewrite E; reflexivity|constructor].
      * inversion IH; subst.
        constructor; [simpl; rewrite E; assumption|assumption].
Qed.

Lemma split_without_sep (s : string) :
  Py.contains c s = false -> Py.split c s = [s].
Proof.
  induction s as [|x s IH]; simpl; [reflexivity|].
  intros H. apply orb_false_iff in H as [E H].
  rewrite E, (IH H). reflexivity.
Qed.

Lemma rfind_from_range (s : string) (pos : Z) :
  Py.rfind_from c s pos = -1
  \/ pos <= Py.rfind_from c s pos < pos + Py.len s.
Proof.
  revert pos. induction s as [|x s IH]; intros pos; simpl; [left; reflexivity|].
  unfold Py.len in *. simpl String.length.
  destruct (IH (pos + 1)) as [E|E].
  - rewrite E. simpl. destruct (Ascii.eqb x c); [right; lia|left; reflexivity].
  - destruct (Z.leb_spec 0 (Py.rfind_from c s (pos + 1))).
    + right; lia.
    + destruct (Ascii.eqb x c); [right; lia|left; reflexivity].
Qed.

Lemma rfind_from_shift (s : string) (pos : Z) :
  0 <= pos ->
  Py.rfind_from c s pos =
    if 0 <=? Py.rfind_from c s 0 then pos + Py.rfind_from c s 0 else -1.
Proof.
  revert pos. induction s as [|x s IH]; intros pos Hp; simpl; [reflexivity|].
  rewrite (IH (pos + 1)) by lia. rewrite (IH (0 + 1)) by lia.
  destruct (rfind_from_range s 0) as [E|E].
  - rewrite E. simpl. destruct (Ascii.eqb x c); simpl.
    + case_cmp; lia.
    + reflexivity.
  - clear IH. destruct (Ascii.eqb x c); case_cmp; lia.
Qed.

Lemma rfind_cons (x : ascii) (s : string) :
  Py.rfind c (String x s) =
    if 0 <=? Py.rfind c s then 1 + Py.rfind c s
    else if Ascii.eqb x c then 0 else -1.
Proof.
  unfold Py.rfind. simpl. rewrite (rfind_from_shift s (0 + 1)) by lia.
  destruct (rfind_from_range s 0) as [E|E].
  - rewrite E. reflexivity.
  - case_cmp; lia.
Qed.

Lemma rfind_range (s : string) :
  Py.rfind c s = -1 \/ 0 <= Py.rfind c s < Py.len s.
Proof. unfold Py.rfind. destruct (rfind_from_range s 0); [left|right]; lia. Qed.

Lemma rfind_absent (s : string) :
  Py.contains c s = false <-> Py.rfind c s = -1.
Proof.
  induction s as [|x s IH]; [split; reflexivity|].
  rewrite rfind_cons. simpl.
  destruct (rfind_range s) as [E|E].
  - rewrite E. simpl. destruct (Ascii.eqb x c); simpl.
    + split; [discriminate|lia].
    + split; [reflexivity|]. intros _. apply IH, E.
  - destruct (Z.leb_spec 0 (Py.rfind c s)); [|lia].
    split; [|lia]. intros Hc. apply orb_false_iff in Hc as [_ Hc].
    apply IH in Hc. lia.
Qed.

(** From the last occurrence on, the string is [c] followed by a rest
    without [c]. *)
Lemma slice_from_rfind (s : string) :
  0 <= Py.rfind c s ->
  exists rest, Py.slice_from (Py.rfind c s) s = String c rest
               /\ Py.contains c rest = false
               /\ Py.len s = Py.rfind c s + 1 + Py.len rest.
Proof.
  induction s as [|x s IH]; [unfold Py.rfind; simpl; lia|].
  rewrite rfind_cons. unfold Py.slice_from, Py.len in *.
  destruct (rfind_range s) as [E|E].
  - rewrite E. change (0 <=? -1) with false. cbv iota.
    destruct (Ascii.eqb x c) eqn:Ex; [|lia].
    intros _. apply Ascii.eqb_eq in Ex. subst x. exists s.
    split; [reflexivity|]. split; [apply rfind_absent, E|].
    simpl String.length. lia.
  - destruct (Z.leb_spec 0 (Py.rfind c s)); [|lia]. intros _.
    destruct (IH ltac:(lia)) as (rest & H1 & H2 & H3).
    exists rest. split; [|split; [exact H2|simpl String.length; lia]].
    replace (Z.to_nat (1 + Py.rfind c s)) with (S (Z.to_nat (Py.rfind c s))) by lia.
    exact H1.
Qed.

Lemma rfind_app (a b : string) :
  Py.rfind c (a +:+ b) =
    if 0 <=? Py.rfind c b then Py.len a + Py.rfind c b else Py.rfind c a.
Proof.
  induction a as [|x a IH].
  - change (EmptyString +:+ b) with b. unfold Py.len.
    change (String.length "") with 0%nat.
    destruct (rfind_range b) as [E|E]; [rewrite E; reflexivity|].
    case_cmp; lia.
  - change (String x a +:+ b) with (String x (a +:+ b)).
    rewrite !rfind_cons, IH. unfold Py.len. simpl String.length.
    destruct (rfind_range b) as [E|E].
    + rewrite E. reflexivity.
    + case_cmp; lia.
Qed.

End StringFacts.

Lemma len_app (a b : string) : Py.len (a +:+ b) = Py.len a + Py.len b.
Proof.
  unfold Py.len. induction a as [|x a IH].
  - change (EmptyString +:+ b) with b. change (String.length "") with 0%nat. lia.
  - change (String x a +:+ b) with (String x (a +:+ b)). simpl String.length. lia.
Qed.

Lemma drop_chars_app (a b : string) :
  Py.drop_chars (String.length a) (a +:+ b) = b.
Proof. induction a as [|x a IH]; [destruct b; reflexivity|exact IH]. Qed.

Lemma contains_In (c : ascii) (s : string) :
  Py.contains c s = true <-> In c (list_ascii_of_string s).
Proof.
  induction s as [|x s IH]; simpl; [split; [discriminate|tauto]|].
  rewrite orb_true_iff, IH, Ascii.eqb_eq. tauto.
Qed.

(** * Facts about [uuid] *)

Lemma hex_digit_in (d : Z) : In (Uuid.hex_digit d) Uuid.hexchars.
Proof.
  unfold Uuid.hex_digit.
  destruct (nth_in_or_default (Z.to_nat d) Uuid.hexchars "0"%char) as [H|H].
  - exact H.
  - rewrite H. left. reflexivity.
Qed.

Lemma hex32_chars (n : Z) : Forall uuid_char (Uuid.hex32 n).
Proof.
  unfold Uuid.hex32. apply List.Forall_map, List.Forall_forall.
  intros i _. apply in_or_app. left. apply hex_digit_in.
Qed.

Lemma length_string_of_list_ascii (l : list ascii) :
  String.length (string_of_list_ascii l) = List.length l.
Proof. induction l as [|x l IH]; simpl; congruence. Qed.

Lemma str_chars (n : Z) : Forall uuid_char (list_ascii_of_string (Uuid.str n)).
Proof.
  unfold Uuid.str. rewrite list_ascii_of_string_of_list_ascii.
  pose proof (hex32_chars n) as H.
  assert (Hd : Forall uuid_char ["-"%char]).
  { constructor; [|constructor]. apply in_or_app. right. left. reflexivity. }
  repeat (apply Forall_app; split);
    auto using Forall_take, Forall_drop.
Qed.

Lemma str_length (n : Z) : String.length (Uuid.str n) = 36%nat.
Proof.
  unfold Uuid.str. rewrite length_string_of_list_ascii.
  repeat rewrite ?List.length_app, ?List.length_firstn, ?List.length_skipn.
  unfold Uuid.hex32. rewrite List.length_map, List.length_seq. reflexivity.
Qed.

Lemma str_head (n : Z) :
  exists a r, Uuid.str n = String a r /\ uuid_char a.
Proof.
  pose proof (str_length n) as Hl. pose proof (str_chars n) as Hc.
  destruct (Uuid.str n) as [|a r]; [discriminate|].
  exists a, r. split; [reflexivity|]. simpl in Hc. inversion Hc; assumption.
Qed.

Lemma uuid_char_not_dot : ~ uuid_char "."%char.
Proof. unfold uuid_char. simpl. intuition discriminate. Qed.

Lemma uuid_char_not_slash : ~ uuid_char "/"%char.
Proof. unfold uuid_char. simpl. intuition discriminate. Qed.

Lemma str_without (c : ascii) (n : Z) :
  ~ uuid_char c -> Py.contains c (Uuid.str n) = false.
Proof.
  intros Hc. destruct (Py.contains c (Uuid.str n)) eqn:E; [|reflexivity].
  exfalso. apply contains_In in E. apply Hc.
  pose proof (str_chars n) as H. rewrite List.Forall_forall in H. auto.
Qed.

(** * Facts about [pathlib] *)

Lemma Path_single (s : string) :
  Py.contains "/" s = false -> s <> "" -> s <> "." ->
  Pathlib.Path s = {| Pathlib.absolute := false; Pathlib.parts := [s] |}.
Proof.
  intros Hs H1 H2. unfold Pathlib.Path.
  rewrite (split_without_sep _ _ Hs).
  assert (Hab : Py.startswith "/" s = false).
  { destruct s as [|a s]; [reflexivity|]. simpl in *.
    apply orb_false_iff in Hs as [Hs _]. exact Hs. }
  rewrite Hab. simpl. unfold Pathlib.keep_part.
  apply String.eqb_neq in H1, H2. rewrite H1, H2. reflexivity.
Qed.

Lemma name_no_sep (s : string) :
  Py.contains "/" (Pathlib.name (Pathlib.Path s)) = false.
Proof.
  unfold Pathlib.name, Pathlib.Path. simpl.
  pose proof (split_no_sep "/" s) as H.
  induction (Py.split "/" s) as [|x l IH]; [reflexivity|].
  inversion H; subst. simpl.
  destruct (Pathlib.keep_part x); [|auto].
  simpl. destruct (List.filter Pathlib.keep_part l) eqn:E; [assumption|auto].
Qed.

(** The suffix is empty, or a dot followed by a non-empty rest without
    dots; it never holds a separator. *)
Lemma suffix_shape (p : Pathlib.path) :
  Pathlib.suffix p = ""
  \/ exists rest, Pathlib.suffix p = String "." rest
                  /\ rest <> "" /\ Py.contains "." rest = false
                  /\ Pathlib.suffix p
                     = Py.slice_from (Py.rfind "." (Pathlib.name p)) (Pathlib.name p).
Proof.
  unfold Pathlib.suffix.
  set (n := Pathlib.name p).
  destruct (Z.ltb_spec 0 (Py.rfind "." n)) as [H0|H0]; [|left; reflexivity].
  destruct (Z.ltb_spec (Py.rfind "." n) (Py.len n - 1)) as [H1|H1];
    [|left; reflexivity].
  right. simpl.
  destruct (slice_from_rfind "." n ltac:(lia)) as (rest & E1 & E2 & E3).
  exists rest. repeat split; try assumption.
  intros ->. unfold Py.len in E3 at 2. simpl in E3. lia.
Qed.

Lemma suffix_no_sep (s : string) :
  Py.contains "/" (Pathlib.suffix (Pathlib.Path s)) = false.
Proof.
  unfold Pathlib.suffix.
  destruct (_ && _); [|reflexivity].
  apply contains_drop_chars, name_no_sep.
Qed.

(** * Facts about [generate_unique_filename] *)

Lemma generated_head (e : env) (fn : string) :
  exists a r, generate_unique_filename e fn = String a r
              /\ a <> "."%char /\ a <> "/"%char.
Proof.
  unfold generate_unique_filename.
  destruct (str_head (Uuid.uuid4_int (urandom e))) as (a & r & E & Ha).
  rewrite E. exists a, (r +:+ Pathlib.suffix (Pathlib.Path fn)).
  split; [reflexivity|].
  split; intros ->; [apply uuid_char_not_dot|apply uuid_char_not_slash]; exact Ha.
Qed.

Lemma generated_no_sep (e : env) (fn : string) :
  Py.contains "/" (generate_unique_filename e fn) = false.
Proof.
  unfold generate_unique_filename. rewrite contains_app.
  rewrite (str_without _ _ uuid_char_not_slash), suffix_no_sep. reflexivity.
Qed.

(** The generated name is one clean path component. *)
Lemma generated_single (e : env) (fn : string) :
  Pathlib.Path (generate_unique_filename e fn)
  = {| Pathlib.absolute := false;
       Pathlib.parts := [generate_unique_filename e fn] |}
  /\ generate_unique_filename e fn <> "..".
Proof.
  destruct (generated_head e fn) as (a & r & E & H1 & H2).
  split.
  - apply Path_single; [apply generated_no_sep| |]; rewrite E; congruence.
  - rewrite E. congruence.
Qed.

Lemma generated_suffix (e : env) (fn : string) :
  Pathlib.suffix (Pathlib.Path (generate_unique_filename e fn))
  = Pathlib.suffix (Pathlib.Path fn).
Proof.
  destruct (generated_single e fn) as [HP _]. rewrite HP.
  unfold Pathlib.suffix at 1, Pathlib.name. simpl List.last.
  unfold generate_unique_filename.
  set (t := Uuid.str (Uuid.uuid4_int (urandom e))).
  assert (Ht : String.length t = 36%nat) by apply str_length.
  assert (Hd : Py.rfind "." t = -1).
  { apply rfind_absent, str_without, uuid_char_not_dot. }
  rewrite rfind_app, len_app.
  destruct (suffix_shape (Pathlib.Path fn)) as [E|(rest & E & Hne & Hr & _)];
    rewrite E.
  - change (Py.rfind "." "") with (-1). change (0 <=? -1) with false.
    cbv iota. rewrite Hd. reflexivity.
  - rewrite rfind_cons. apply rfind_absent in Hr. rewrite Hr.
    change (0 <=? -1) with false. cbv iota.
    change (Ascii.eqb "." ".") with true. cbv iota.
    change (0 <=? 0) with true. cbv iota.
    unfold Py.len. rewrite Ht. simpl String.length.
    assert (Hl : (0 < String.length rest)%nat).
    { destruct rest; [congruence|simpl; lia]. }
    destruct (Z.ltb_spec 0 (Z.of_nat 36 + 0)); [|lia].
    destruct (Z.ltb_spec (Z.of_nat 36 + 0)
                (Z.of_nat 36 + Z.of_nat (S (String.length rest)) - 1)); [|lia].
    simpl andb. cbv iota. unfold Py.slice_from.
    replace (Z.to_nat (Z.of_nat 36 + 0)) with (String.length t) by lia.
    apply drop_chars_app.
Qed.

(** Without a directory part, and with the last dot absent or strictly
    inside the name, [pathlib]'s suffix is the extension of the claim. *)
Lemma suffix_spec_extension (fn : string) :
  Py.contains "/" fn = false ->
  Py.rfind "." fn < 0 \/ 0 < Py.rfind "." fn < Py.len fn - 1 ->
  Pathlib.suffix (Pathlib.Path fn) = spec_extension fn.
Proof.
  intros Hs Hd.
  destruct (string_dec fn "") as [->|H1]; [reflexivity|].
  destruct (string_dec fn ".") as [->|H2].
  { exfalso. change (Py.rfind "." ".") with 0 in Hd. lia. }
  rewrite (Path_single fn Hs H1 H2).
  unfold Pathlib.suffix, spec_extension, Pathlib.name. simpl List.last.
  destruct Hd as [Hd|Hd]; case_cmp; try lia; reflexivity.
Qed.

(** C7, as amended: the generated name is the token followed by
    [Path(original_filename).suffix], and the suffix of the generated name is
    again that suffix.  The suffix is taken from the final path component and
    is empty when the last dot of that component is its first or its last
    character; for a name without ['/'] whose last dot is absent or strictly
    inside, it is the substring from the last dot on. *)
Theorem generate_unique_filename_extension (e : env) (fn : string) :
  generate_unique_filename e fn = (token e +:+ Pathlib.suffix (Pathlib.Path fn))
  /\ Pathlib.suffix (Pathlib.Path (generate_unique_filename e fn))
     = Pathlib.suffix (Pathlib.Path fn)
  /\ (Py.contains "/" fn = false ->
      Py.rfind "." fn < 0 \/ 0 < Py.rfind "." fn < Py.len fn - 1 ->
      generate_unique_filename e fn = (token e +:+ spec_extension fn)).
Proof.
  split; [reflexivity|]. split; [apply generated_suffix|].
  intros Hs Hd. unfold generate_unique_filename, token.
  rewrite (suffix_spec_extension fn Hs Hd). reflexivity.
Qed.

Lemma generate_unique_filename_extension_witness :
  generate_unique_filename (Sample.quiet 0) "report.tar.gz"
  = "00000000-0000-4000-8000-000000000000.gz"
  /\ generate_unique_filename (Sample.quiet 0) "report.tar.gz"
     = (token (Sample.quiet 0) +:+ spec_extension "report.tar.gz").
Proof.
  split; [reflexivity|].
  apply (generate_unique_filename_extension (Sample.quiet 0) "report.tar.gz");
    [reflexivity|right; vm_compute; split; reflexivity].
Defined.

(** C7, as stated, fails: a leading dot, a trailing dot and a dot in a
    directory part are all "last dots" for the claim, and none of them gives
    an extension in the code. *)
Lemma generate_unique_filename_extension_counterexample :
  generate_unique_filename (Sample.quiet 0) ".bashrc"
    = "00000000-0000-4000-8000-000000000000"
  /\ (token (Sample.quiet 0) +:+ spec_extension ".bashrc")
    = "00000000-0000-4000-8000-000000000000.bashrc"
  /\ generate_unique_filename (Sample.quiet 0) "v1.2/notes"
    <> (token (Sample.quiet 0) +:+ spec_extension "v1.2/notes")
  /\ ~ (forall e fn,
         generate_unique_filename e fn = (token e +:+ spec_extension fn)).
Proof.
  split; [reflexivity|]. split; [reflexivity|]. split; [vm_compute; discriminate|].
  intros H. specialize (H (Sample.quiet 0) ".bashrc"). vm_compute in H.
  discriminate.
Qed.

(** * [format_file_size] *)

(** Five rounds are enough: when [size_loop] stops, the loop condition of
    the source is false. *)
Lemma size_loop_exit (x : Float.float) :
  let '(size_float, i) := size_loop (List.length size_names) x 0 in
  Float.ge_1024 size_float && (i <? Z.of_nat (List.length size_names) - 1) = false.
Proof.
  simpl.
  repeat match goal with
         | |- context [Float.ge_1024 ?y && _] =>
             destruct (Float.ge_1024 y) eqn:?; simpl; try reflexivity
         end;
    try (rewrite andb_false_r; reflexivity);
    simpl; congruence.
Qed.

(** C8: the six sample sizes of the specification. *)
Theorem format_file_size_examples :
  format_file_size 0 = Ok "0 B"
  /\ format_file_size 512 = Ok "512.0 B"
  /\ format_file_size 1024 = Ok "1.0 KB"
  /\ format_file_size 1536 = Ok "1.5 KB"
  /\ format_file_size 1048576 = Ok "1.0 MB"
  /\ format_file_size 1073741824 = Ok "1.0 GB".
Proof. repeat split; vm_compute; reflexivity. Qed.

(** * The two upload entry points *)

(** C10: on the same filename, declared content type and bytes, with the
    same environment and from the same world, [save_upload_event] and
    [save_uploaded_file] give the same result and leave the same world. *)
Theorem entry_points_equivalent (e : env) (filename content_type : option string)
        (content : list byte) (w : world) :
  save_upload_event e
    {| nicegui.name := filename; nicegui.type := content_type;
       nicegui.content := content |} w
  = save_uploaded_file e
      {| fastapi.filename := filename; fastapi.content_type := content_type;
         fastapi.file := content |} w.
Proof. reflexivity. Qed.

Lemma save_upload_event_as_event (e : env) (u : fastapi.UploadFile) (w : world) :
  save_upload_event e (as_event u) w = save_uploaded_file e u w.
Proof. destruct u; reflexivity. Qed.

(** * Rejections *)

(** C2: content longer than [MAX_FILE_SIZE] (300 MiB) is rejected with
    [None], and the world, file system and table, is left as it was. *)
Theorem too_large_rejected (e : env) (u : fastapi.UploadFile) (w : world) :
  len_bytes (fastapi.file u) > MAX_FILE_SIZE ->
  MAX_FILE_SIZE = 314572800
  /\ save_uploaded_file e u w = (Ok None, w)
  /\ save_upload_event e (as_event u) w = (Ok None, w).
Proof.
  intros H. split; [reflexivity|].
  rewrite save_upload_event_as_event.
  assert (E : save_uploaded_file e u w = (Ok None, w)); [|split; exact E].
  unfold save_uploaded_file.
  destruct (fastapi.filename u); [|reflexivity].
  rewrite Z.gtb_ltb. destruct (Z.ltb_spec MAX_FILE_SIZE (len_bytes (fastapi.file u)));
    [reflexivity|lia].
Qed.

Lemma too_large_rejected_witness :
  let u := {| fastapi.filename := Some "large.txt";
              fastapi.content_type := Some "text/plain";
              fastapi.file := List.repeat "x"%byte (Z.to_nat (MAX_FILE_SIZE + 1)) |} in
  len_bytes (fastapi.file u) > MAX_FILE_SIZE
  /\ save_uploaded_file (Sample.quiet 0) u Sample.srv = (Ok None, Sample.srv).
Proof.
  intros u.
  assert (H : len_bytes (fastapi.file u) > MAX_FILE_SIZE).
  { unfold len_bytes, u, fastapi.file. rewrite List.repeat_length.
    unfold MAX_FILE_SIZE. lia. }
  split; [exact H|].
  exact (proj1 (proj2 (too_large_rejected (Sample.quiet 0) u Sample.srv H))).
Defined.

(** * Facts about the file system *)

Ltac run := unfold mbind, M_bind, mret, M_ret, bind, ret, try_except.

Lemma loc_ne_1 (l : list string) (a : string) : l <> l ++ [a].
Proof.
  intros H. apply (f_equal (@List.length _)) in H.
  rewrite List.length_app in H. simpl in H. lia.
Qed.

Lemma loc_ne_2 (l : list string) (a b : string) : l <> l ++ [a; b].
Proof.
  intros H. apply (f_equal (@List.length _)) in H.
  rewrite List.length_app in H. simpl in H. lia.
Qed.

Lemma loc_ne_3 (l : list string) (a b : string) : l ++ [a] <> l ++ [a; b].
Proof.
  intros H. apply (f_equal (@List.length _)) in H.
  rewrite !List.length_app in H. simpl in H. lia.
Qed.

Lemma UPLOADS_DIR_parts :
  UPLOADS_DIR = {| Pathlib.absolute := false; Pathlib.parts := ["uploads"] |}.
Proof. reflexivity. Qed.

Lemma truediv_single (s : string) :
  Pathlib.Path s = {| Pathlib.absolute := false; Pathlib.parts := [s] |} ->
  Pathlib.truediv UPLOADS_DIR s
  = {| Pathlib.absolute := false; Pathlib.parts := ["uploads"; s] |}.
Proof. intros H. unfold Pathlib.truediv. rewrite H. reflexivity. Qed.

(** Without [".."] a walk only descends. *)
Lemma walk_descends (t : gmap (list string) node) (comps l l' : list string) :
  Forall (fun c => c <> "..") comps ->
  Os.walk t l comps = Some l' -> l' = l ++ comps.
Proof.
  revert l. induction comps as [|c r IH]; intros l Hc H; simpl in H.
  - rewrite List.app_nil_r. congruence.
  - inversion Hc as [|? ? Hne Hr]; subst.
    destruct (t !! l) as [[|?]|]; try discriminate.
    apply IH in H; [|assumption]. subst l'. unfold Os.step.
    apply String.eqb_neq in Hne. rewrite Hne.
    rewrite <- List.app_assoc. reflexivity.
Qed.

Lemma locate_uploads (w : world) :
  files w !! cwd w = Some Dir ->
  Os.locate w UPLOADS_DIR = Some (uploads_loc w).
Proof.
  intros H. unfold Os.locate. rewrite UPLOADS_DIR_parts. simpl. rewrite H.
  reflexivity.
Qed.

Lemma locate_blob (w : world) (s : string) :
  s <> ".." ->
  files w !! cwd w = Some Dir ->
  files w !! uploads_loc w = Some Dir ->
  Os.locate w {| Pathlib.absolute := false; Pathlib.parts := ["uploads"; s] |}
  = Some (blob_loc w s).
Proof.
  intros Hs H1 H2. unfold Os.locate. simpl. rewrite H1.
  change (Os.step (cwd w) "uploads") with (uploads_loc w). rewrite H2.
  unfold Os.step. apply String.eqb_neq in Hs. rewrite Hs.
  unfold uploads_loc, blob_loc. rewrite <- List.app_assoc. reflexivity.
Qed.

(** [ensure_uploads_directory] succeeds when the working directory exists
    and ["uploads"] is not a regular file; it touches nothing else. *)
Lemma ensure_uploads_directory_ok (w : world) :
  files w !! cwd w = Some Dir ->
  (forall c, files w !! uploads_loc w <> Some (File c)) ->
  exists w1,
    ensure_uploads_directory w = (Ok tt, w1)
    /\ cwd w1 = cwd w /\ rows w1 = rows w /\ next_id w1 = next_id w
    /\ files w1 !! uploads_loc w = Some Dir
    /\ (forall l, l <> uploads_loc w -> files w1 !! l = files w !! l).
Proof.
  intros H1 H2. unfold ensure_uploads_directory, Os.mkdir_exist_ok.
  rewrite (locate_uploads w H1).
  destruct (files w !! uploads_loc w) as [[|c]|] eqn:E.
  - exists w. repeat split; auto.
  - exfalso. exact (H2 c eq_refl).
  - eexists. split; [reflexivity|]. simpl. repeat split.
    + apply lookup_insert_eq.
    + intros l Hl. apply lookup_insert_ne. congruence.
Qed.

(** ** Operations on a blob path

    In a world whose working directory and uploads directory exist, the
    operations on [uploads/s] act on the one location [blob_loc x s]. *)

Section BlobOps.

Variables (x : world) (s : string).

Let p := {| Pathlib.absolute := false; Pathlib.parts := ["uploads"; s] |}.

Hypothesis Hs : s <> "..".
Hypothesis Hcwd : files x !! cwd x = Some Dir.
Hypothesis Hup : files x !! uploads_loc x = Some Dir.

Lemma stat_blob : Os.stat x p = files x !! blob_loc x s.
Proof. unfold Os.stat, p. rewrite (locate_blob x s Hs Hcwd Hup). reflexivity. Qed.

Lemma open_wb_blob :
  files x !! blob_loc x s <> Some Dir ->
  Os.open_wb p x
  = (Ok (blob_loc x s), Os.set_files (<[blob_loc x s := File []]> (files x)) x).
Proof.
  intros H. unfold Os.open_wb, p. rewrite (locate_blob x s Hs Hcwd Hup).
  destruct (files x !! blob_loc x s) as [[|c]|]; congruence.
Qed.

Lemma exists_blob :
  Os.exists_ p x
  = (Ok (match files x !! blob_loc x s with Some _ => true | None => false end), x).
Proof. unfold Os.exists_. rewrite stat_blob. reflexivity. Qed.

Lemma unlink_blob (e : env) (c : list byte) :
  files x !! blob_loc x s = Some (File c) ->
  Os.unlink e p x
  = if unlink_fault e then (Raise OSError, x)
    else (Ok tt, Os.set_files (delete (blob_loc x s) (files x)) x).
Proof.
  intros H. unfold Os.unlink, p. rewrite (locate_blob x s Hs Hcwd Hup), H.
  reflexivity.
Qed.

Lemma read_bytes_blob (c : list byte) :
  files x !! blob_loc x s = Some (File c) -> Os.read_bytes x p = Some c.
Proof. intros H. unfold Os.read_bytes. rewrite stat_blob, H. reflexivity. Qed.

(** The [except] branch of the upload functions, entered with the blob on
    disk: the blob is deleted and [None] returned, unless the deletion itself
    raises. *)
Lemma cleanup_blob (e : env) (c : list byte) :
  files x !! blob_loc x s = Some (File c) ->
  (b ← Os.exists_ p;
   (if b : bool then Os.unlink e p else ret tt);;
   ret (@None UploadedFile)) x
  = if unlink_fault e then (Raise OSError, x)
    else (Ok None, Os.set_files (delete (blob_loc x s) (files x)) x).
Proof.
  intros H. run. rewrite exists_blob, H. rewrite (unlink_blob e c H).
  destruct (unlink_fault e); reflexivity.
Qed.

End BlobOps.

(** * The upload pipeline *)

Section Pipeline.

Variables (e : env) (u : fastapi.UploadFile) (w : world) (filename : string).

Let content := fastapi.file u.
Let s := generate_unique_filename e filename.
Let b := blob_loc w s.

Hypothesis Hname : fastapi.filename u = Some filename.
Hypothesis Hsize : len_bytes content <= MAX_FILE_SIZE.
Hypothesis Hcwd : files w !! cwd w = Some Dir.
Hypothesis Hup : forall c, files w !! uploads_loc w <> Some (File c).
Hypothesis Hblob : files w !! b <> Some Dir.

(** What one upload does, case by case, once the uploads directory can be
    made and no directory sits at the blob's place.  [t] is the file system
    after [ensure_uploads_directory]. *)
Lemma save_uploaded_file_run :
  exists t : gmap (list string) node,
    t !! cwd w = Some Dir /\ t !! uploads_loc w = Some Dir
    /\ (forall l, l <> uploads_loc w -> t !! l = files w !! l)
    /\ save_uploaded_file e u w =
       if write_fault e then
         if unlink_fault e
         then (Raise OSError, mkWorld (<[b := File []]> t) (cwd w) (rows w) (next_id w))
         else (Ok None, mkWorld (delete b t) (cwd w) (rows w) (next_id w))
       else if db_fault e || Sql.has_stored s (rows w) then
         if unlink_fault e
         then (Raise OSError,
               mkWorld (<[b := File content]> t) (cwd w) (rows w) (next_id w))
         else (Ok None, mkWorld (delete b t) (cwd w) (rows w) (next_id w))
       else
         let r := stored_record e filename (fastapi.content_type u) content
                                (Some (next_id w)) in
         (Ok (Some r),
          mkWorld (<[b := File content]> t) (cwd w) (rows w ++ [r]) (next_id w + 1)).
Proof.
  destruct (ensure_uploads_directory_ok w Hcwd Hup)
    as (w1 & E1 & Ec & Er & En & Hu & Ho).
  destruct (generated_single e filename) as [HP Hdd].
  assert (Hc1 : files w1 !! cwd w1 = Some Dir).
  { rewrite Ec, Ho; [exact Hcwd|apply loc_ne_1]. }
  assert (Hu1 : files w1 !! uploads_loc w1 = Some Dir).
  { unfold uploads_loc. rewrite Ec. exact Hu. }
  assert (Eb : blob_loc w1 s = b) by (unfold blob_loc, b; rewrite Ec; reflexivity).
  assert (Hb1 : files w1 !! blob_loc w1 s <> Some Dir).
  { rewrite Eb, Ho; [exact Hblob|]. symmetry. apply loc_ne_3. }
  exists (files w1). split; [rewrite <- Ec; exact Hc1|]. split; [exact Hu|].
  split; [exact Ho|].
  unfold save_uploaded_file. rewrite Hname, Z.gtb_ltb.
  destruct (Z.ltb_spec MAX_FILE_SIZE (len_bytes (fastapi.file u))) as [Hlt|_];
    [unfold content in Hsize; lia|].
  rewrite (truediv_single _ HP). fold s.
  unfold try_except, mbind at 1, M_bind at 1, bind at 1. rewrite E1.
  unfold mbind at 1, M_bind at 1, bind at 1.
  rewrite (open_wb_blob w1 s Hdd Hc1 Hu1 Hb1), Eb.
  set (w2 := Os.set_files (<[b := File []]> (files w1)) w1).
  assert (Hc2 : files w2 !! cwd w2 = Some Dir).
  { change (<[b := File []]> (files w1) !! cwd w1 = Some Dir).
    rewrite lookup_insert_ne; [exact Hc1|].
    unfold b, blob_loc. rewrite Ec. symmetry. apply loc_ne_2. }
  assert (Hu2 : files w2 !! uploads_loc w2 = Some Dir).
  { change (<[b := File []]> (files w1) !! uploads_loc w1 = Some Dir).
    rewrite lookup_insert_ne; [exact Hu1|].
    unfold b, blob_loc, uploads_loc. rewrite Ec. symmetry. apply loc_ne_3. }
  assert (Eb2 : blob_loc w2 s = b) by exact Eb.
  unfold mbind at 1, M_bind at 1, bind at 1, Os.write.
  destruct (write_fault e).
  - rewrite (cleanup_blob w2 s Hdd Hc2 Hu2 e []);
      [|rewrite Eb2; apply lookup_insert_eq].
    rewrite Eb2. unfold w2, Os.set_files. simpl.
    rewrite delete_insert_eq, Ec, Er, En. reflexivity.
  - set (w3 := Os.set_files (<[b := File (fastapi.file u)]> (files w2)) w2).
    assert (Hc3 : files w3 !! cwd w3 = Some Dir).
    { change (<[b := File (fastapi.file u)]> (files w2) !! cwd w1 = Some Dir).
      rewrite lookup_insert_ne; [exact Hc2|].
      unfold b, blob_loc. rewrite Ec. symmetry. apply loc_ne_2. }
    assert (Hu3 : files w3 !! uploads_loc w3 = Some Dir).
    { change (<[b := File (fastapi.file u)]> (files w2) !! uploads_loc w1 = Some Dir).
      rewrite lookup_insert_ne; [exact Hu2|].
      unfold b, blob_loc, uploads_loc. rewrite Ec. symmetry. apply loc_ne_3. }
    assert (Eb3 : blob_loc w3 s = b) by exact Eb.
    assert (Ew3 : w3 = mkWorld (<[b := File content]> (files w1))
                               (cwd w) (rows w) (next_id w)).
    { unfold w3, w2, Os.set_files. simpl.
      rewrite insert_insert_eq, Ec, Er, En. reflexivity. }
    assert (Hb3 : files w3 !! blob_loc w3 s = Some (File (fastapi.file u))).
    { rewrite Eb3. apply lookup_insert_eq. }
    assert (Ed3 : Os.set_files (delete (blob_loc w3 s) (files w3)) w3
                  = mkWorld (delete b (files w1)) (cwd w) (rows w) (next_id w)).
    { rewrite Eb3, Ew3. unfold Os.set_files. simpl.
      rewrite delete_insert_eq. reflexivity. }
    unfold mbind at 1, M_bind at 1, bind at 1, Sql.add_commit_refresh.
    simpl stored_filename. fold s.
    replace (rows w3) with (rows w) by (symmetry; exact Er).
    destruct (db_fault e); simpl orb.
    + rewrite (cleanup_blob w3 s Hdd Hc3 Hu3 e (fastapi.file u) Hb3), Ed3.
      rewrite Ew3 at 1. reflexivity.
    + destruct (Sql.has_stored s (rows w)).
      * rewrite (cleanup_blob w3 s Hdd Hc3 Hu3 e (fastapi.file u) Hb3), Ed3.
        rewrite Ew3 at 1. reflexivity.
      * unfold mret, M_ret, ret, Sql.set_rows. rewrite Ew3. reflexivity.
Qed.

End Pipeline.

(** The blob path of a generated name, and what is found there once a file
    has been put at the blob's place. *)
Lemma blob_lookup (w : world) (s : string) (t : gmap (list string) node)
      (rs : list UploadedFile) (n : Z) (o : option node) :
  Pathlib.Path s = {| Pathlib.absolute := false; Pathlib.parts := [s] |} ->
  s <> ".." ->
  t !! cwd w = Some Dir -> t !! uploads_loc w = Some Dir ->
  t !! blob_loc w s = o ->
  Os.stat (mkWorld t (cwd w) rs n) (Pathlib.truediv UPLOADS_DIR s) = o.
Proof.
  intros HP Hs H1 H2 H3. rewrite (truediv_single _ HP).
  rewrite (stat_blob (mkWorld t (cwd w) rs n) s Hs H1 H2). exact H3.
Qed.



(** C5: when the blob has been written and the insert then fails, with the
    deletion succeeding and the generated name not in the table, the call
    returns [None], the table is as before and holds no record for the
    generated name, and no blob is left at its path. *)
Theorem failed_insert_rolls_back (e : env) (u : fastapi.UploadFile) (w : world)
        (filename : string) :
  fastapi.filename u = Some filename ->
  len_bytes (fastapi.file u) <= MAX_FILE_SIZE ->
  can_store w (generate_unique_filename e filename) ->
  write_fault e = false ->
  db_fault e = true ->
  unlink_fault e = false ->
  Sql.has_stored (generate_unique_filename e filename) (rows w) = false ->
  exists w',
    save_uploaded_file e u w = (Ok None, w')
    /\ save_upload_event e (as_event u) w = (Ok None, w')
    /\ rows w' = rows w
    /\ Sql.has_stored (generate_unique_filename e filename) (rows w') = false
    /\ Os.stat w' (Pathlib.truediv UPLOADS_DIR (generate_unique_filename e filename))
       = None
    /\ get_file_path (generate_unique_filename e filename) w' = (Ok None, w').
Proof.
  intros Hname Hsize (Hcwd & Hup & Hblob) Hw Hd Hu Hfresh.
  destruct (save_uploaded_file_run e u w filename Hname Hsize Hcwd Hup Hblob)
    as (t & Ht1 & Ht2 & _ & Hrun).
  rewrite Hw, Hd, Hu in Hrun. simpl in Hrun.
  destruct (generated_single e filename) as [HP Hdd].
  eexists. split; [exact Hrun|].
  split; [rewrite save_upload_event_as_event; exact Hrun|].
  split; [reflexivity|]. split; [exact Hfresh|].
  assert (Hstat :
    Os.stat (mkWorld (delete (blob_loc w (generate_unique_filename e filename)) t)
                     (cwd w) (rows w) (next_id w))
            (Pathlib.truediv UPLOADS_DIR (generate_unique_filename e filename))
    = None).
  { apply blob_lookup; auto.
    - rewrite lookup_delete_ne; [exact Ht1|]. symmetry. apply loc_ne_2.
    - rewrite lookup_delete_ne; [exact Ht2|]. symmetry. apply loc_ne_3.
    - apply lookup_delete_eq. }
  split; [exact Hstat|].
  unfold get_file_path. run. unfold Os.exists_. rewrite Hstat. reflexivity.
Qed.

Lemma failed_insert_rolls_back_witness :
  exists w',
    save_uploaded_file (Sample.db_down 7) Sample.hello Sample.srv = (Ok None, w')
    /\ save_upload_event (Sample.db_down 7) (as_event Sample.hello) Sample.srv
       = (Ok None, w')
    /\ rows w' = rows Sample.srv
    /\ Sql.has_stored (generate_unique_filename (Sample.db_down 7) "test.txt")
                      (rows w') = false
    /\ Os.stat w' (Pathlib.truediv UPLOADS_DIR
                     (generate_unique_filename (Sample.db_down 7) "test.txt"))
       = None
    /\ get_file_path (generate_unique_filename (Sample.db_down 7) "test.txt") w'
       = (Ok None, w').
Proof.
  apply (failed_insert_rolls_back (Sample.db_down 7) Sample.hello Sample.srv
                                  "test.txt");
    try reflexivity.
  - vm_compute. discriminate.
  - split; [reflexivity|]. split; [intros c|]; vm_compute; discriminate.
Defined.

(** X17: when the insert fails and the deletion in the [except] branch
    raises as well, the exception leaves the function: the call raises
    instead of returning [None], and the blob stays on disk without a
    record. *)
Remark failed_unlink_escapes (e : env) (u : fastapi.UploadFile) (w : world)
       (filename : string) :
  fastapi.filename u = Some filename ->
  len_bytes (fastapi.file u) <= MAX_FILE_SIZE ->
  can_store w (generate_unique_filename e filename) ->
  write_fault e = false ->
  db_fault e = true ->
  unlink_fault e = true ->
  exists w',
    save_uploaded_file e u w = (Raise OSError, w')
    /\ rows w' = rows w
    /\ Os.read_bytes w' (Pathlib.truediv UPLOADS_DIR
                           (generate_unique_filename e filename))
       = Some (fastapi.file u).
Proof.
  intros Hname Hsize (Hcwd & Hup & Hblob) Hw Hd Hu.
  destruct (save_uploaded_file_run e u w filename Hname Hsize Hcwd Hup Hblob)
    as (t & Ht1 & Ht2 & _ & Hrun).
  rewrite Hw, Hd, Hu in Hrun. simpl in Hrun.
  destruct (generated_single e filename) as [HP Hdd].
  eexists. split; [exact Hrun|]. split; [reflexivity|].
  unfold Os.read_bytes.
  rewrite (blob_lookup w _ _ _ _ (Some (File (fastapi.file u))) HP Hdd);
    [reflexivity| | |].
  - rewrite lookup_insert_ne; [exact Ht1|]. symmetry. apply loc_ne_2.
  - rewrite lookup_insert_ne; [exact Ht2|]. symmetry. apply loc_ne_3.
  - apply lookup_insert_eq.
Qed.

(** X18: when the generated name is already in the table, the insert fails
    on the uniqueness of [stored_filename]; the call returns [None], the
    record that was there stays, and the blob at its path, overwritten by the
    new bytes, is deleted. *)
Remark name_collision (e : env) (u : fastapi.UploadFile) (w : world)
       (filename : string) :
  fastapi.filename u = Some filename ->
  len_bytes (fastapi.file u) <= MAX_FILE_SIZE ->
  can_store w (generate_unique_filename e filename) ->
  write_fault e = false ->
  unlink_fault e = false ->
  Sql.has_stored (generate_unique_filename e filename) (rows w) = true ->
  exists w',
    save_uploaded_file e u w = (Ok None, w')
    /\ Sql.has_stored (generate_unique_filename e filename) (rows w') = true
    /\ Os.stat w' (Pathlib.truediv UPLOADS_DIR
                     (generate_unique_filename e filename))
       = None.
Proof.
  intros Hname Hsize (Hcwd & Hup & Hblob) Hw Hu Hin.
  destruct (save_uploaded_file_run e u w filename Hname Hsize Hcwd Hup Hblob)
    as (t & Ht1 & Ht2 & _ & Hrun).
  rewrite Hw, Hu, Hin, orb_true_r in Hrun. simpl in Hrun.
  destruct (generated_single e filename) as [HP Hdd].
  eexists. split; [exact Hrun|]. split; [exact Hin|].
  apply blob_lookup; auto.
  - rewrite lookup_delete_ne; [exact Ht1|]. symmetry. apply loc_ne_2.
  - rewrite lookup_delete_ne; [exact Ht2|]. symmetry. apply loc_ne_3.
  - apply lookup_delete_eq.
Qed.

(** C4, as amended: an upload without a filename ([None]) is rejected with
    [None] by both entry points, and the world is left as it was. *)
Theorem missing_filename_rejected (e : env) (u : fastapi.UploadFile) (w : world) :
  fastapi.filename u = None ->
  save_uploaded_file e u w = (Ok None, w)
  /\ save_upload_event e (as_event u) w = (Ok None, w).
Proof.
  intros H. rewrite save_upload_event_as_event.
  unfold save_uploaded_file. rewrite H. split; reflexivity.
Qed.

Lemma missing_filename_rejected_witness :
  let u := {| fastapi.filename := None; fastapi.content_type := None;
              fastapi.file := ["c"%byte] |} in
  save_uploaded_file (Sample.quiet 7) u Sample.srv = (Ok None, Sample.srv)
  /\ save_upload_event (Sample.quiet 7) (as_event u) Sample.srv
     = (Ok None, Sample.srv).
Proof.
  intros u.
  exact (missing_filename_rejected (Sample.quiet 7) u Sample.srv eq_refl).
Defined.

(** C4, as stated, fails for the empty string: the upload is stored under
    the bare token and recorded with an empty [original_filename]. *)
Lemma empty_filename_counterexample :
  let out := save_uploaded_file (Sample.quiet 7) Sample.unnamed Sample.srv in
  let r := {| id_ := Some 1;
              original_filename := "";
              stored_filename := "00000000-0000-4000-8000-000000000000";
              file_size := 4;
              content_type := "application/octet-stream";
              upload_timestamp := 7;
              public_url := "/files/00000000-0000-4000-8000-000000000000" |} in
  fastapi.filename Sample.unnamed = Some ""
  /\ fst out = Ok (Some r)
  /\ rows (snd out) = [r]
  /\ Os.read_bytes (snd out)
       (Pathlib.truediv UPLOADS_DIR "00000000-0000-4000-8000-000000000000")
     = Some (fastapi.file Sample.unnamed)
  /\ save_upload_event (Sample.quiet 7) (as_event Sample.unnamed) Sample.srv = out.
Proof. repeat split; vm_compute; reflexivity. Qed.

(** * The read path *)

(** [get_file_path] changes nothing, and what it returns, if anything, is
    [UPLOADS_DIR / stored_filename], found to exist. *)
Lemma get_file_path_inv (s : string) (w w' : world) (p : Pathlib.path) :
  get_file_path s w = (Ok (Some p), w') ->
  w' = w /\ p = Pathlib.truediv UPLOADS_DIR s
  /\ exists l, Os.locate w p = Some l.
Proof.
  unfold get_file_path. run. unfold Os.exists_, Os.stat.
  destruct (Os.locate w (Pathlib.truediv UPLOADS_DIR s)) as [l|] eqn:E.
  - destruct (files w !! l); intros H; inversion H; subst.
    rewrite E. eauto.
  - intros H; inversion H.
Qed.

(** C3, as amended: [get_file_path] neither rejects nor rewrites any name;
    for a relative name none of whose components is [".."], the path it
    returns, if any, leads to a place under the uploads directory. *)
Theorem get_file_path_contained (s : string) (w w' : world) (p : Pathlib.path) :
  Py.startswith "/" s = false ->
  ~ In ".." (Py.split "/" s) ->
  get_file_path s w = (Ok (Some p), w') ->
  w' = w /\ p = Pathlib.truediv UPLOADS_DIR s /\ inside_uploads w p.
Proof.
  intros Habs Hdd H.
  destruct (get_file_path_inv s w w' p H) as (-> & -> & l & Hl).
  split; [reflexivity|]. split; [reflexivity|].
  unfold inside_uploads. rewrite Hl.
  unfold Os.locate, Pathlib.truediv in Hl.
  change (Pathlib.absolute (Pathlib.Path s)) with (Py.startswith "/" s) in Hl.
  rewrite Habs in Hl. simpl in Hl.
  destruct (files w !! cwd w) as [[|c]|] eqn:Hc; try discriminate.
  rewrite (locate_uploads w Hc).
  apply walk_descends in Hl.
  - exists (List.filter Pathlib.keep_part (Py.split "/" s)).
    rewrite Hl. unfold uploads_loc, Os.step. simpl.
    rewrite <- List.app_assoc. reflexivity.
  - apply List.Forall_forall. intros c Hin ->.
    apply List.filter_In in Hin as [Hin _]. exact (Hdd Hin).
Qed.

Lemma get_file_path_contained_witness :
  get_file_path "note.txt" Sample.srv
    = (Ok (Some (Pathlib.truediv UPLOADS_DIR "note.txt")), Sample.srv)
  /\ inside_uploads Sample.srv (Pathlib.truediv UPLOADS_DIR "note.txt").
Proof.
  assert (H : get_file_path "note.txt" Sample.srv
              = (Ok (Some (Pathlib.truediv UPLOADS_DIR "note.txt")), Sample.srv))
    by (vm_compute; reflexivity).
  split; [exact H|].
  apply (get_file_path_contained "note.txt" Sample.srv Sample.srv
                                 (Pathlib.truediv UPLOADS_DIR "note.txt"));
    [reflexivity| |exact H].
  vm_compute. intros [E|[]]. discriminate.
Defined.

(** C3, as stated, fails: a name with a [".."] component and an absolute
    name both come back as paths that lead out of the uploads directory. *)
Lemma get_file_path_counterexample :
  get_file_path "../secret.txt" Sample.srv
    = (Ok (Some {| Pathlib.absolute := false;
                   Pathlib.parts := ["uploads"; ".."; "secret.txt"] |}),
       Sample.srv)
  /\ ~ inside_uploads Sample.srv
         {| Pathlib.absolute := false;
            Pathlib.parts := ["uploads"; ".."; "secret.txt"] |}
  /\ get_file_path ".." Sample.srv
    = (Ok (Some {| Pathlib.absolute := false; Pathlib.parts := ["uploads"; ".."] |}),
       Sample.srv)
  /\ ~ inside_uploads Sample.srv
         {| Pathlib.absolute := false; Pathlib.parts := ["uploads"; ".."] |}
  /\ get_file_path "/etc/passwd" Sample.srv
    = (Ok (Some {| Pathlib.absolute := true; Pathlib.parts := ["etc"; "passwd"] |}),
       Sample.srv)
  /\ ~ inside_uploads Sample.srv
         {| Pathlib.absolute := true; Pathlib.parts := ["etc"; "passwd"] |}.
Proof.
  repeat split; try (vm_compute; reflexivity);
    unfold inside_uploads; intros H; vm_compute in H;
    destruct H as [k Hk]; discriminate.
Qed.

(** C9: [get_file_path] asks only whether the path exists.  A name that
    leads to a directory gets that directory's path back; the empty name
    leads to the uploads directory itself. *)
Theorem get_file_path_returns_directories (s : string) (w : world) :
  (Os.stat w (Pathlib.truediv UPLOADS_DIR s) = Some Dir ->
   get_file_path s w = (Ok (Some (Pathlib.truediv UPLOADS_DIR s)), w))
  /\ (Os.stat w UPLOADS_DIR = Some Dir ->
      Pathlib.truediv UPLOADS_DIR "" = UPLOADS_DIR
      /\ get_file_path "" w = (Ok (Some UPLOADS_DIR), w)).
Proof.
  split.
  - intros H. unfold get_file_path. run. unfold Os.exists_. rewrite H.
    reflexivity.
  - intros H. split; [reflexivity|].
    unfold get_file_path. run. unfold Os.exists_.
    change (Pathlib.truediv UPLOADS_DIR "") with UPLOADS_DIR. rewrite H.
    reflexivity.
Qed.

Lemma get_file_path_returns_directories_witness :
  get_file_path "sub" Sample.srv
    = (Ok (Some (Pathlib.truediv UPLOADS_DIR "sub")), Sample.srv)
  /\ get_file_path "" Sample.srv = (Ok (Some UPLOADS_DIR), Sample.srv).
Proof.
  split.
  - apply (proj1 (get_file_path_returns_directories "sub" Sample.srv)).
    vm_compute. reflexivity.
  - apply (proj2 (get_file_path_returns_directories "" Sample.srv)).
    vm_compute. reflexivity.
Defined.

(** * The listing *)

Section SortDesc.

Variable before : Z -> Z -> bool.
Variable k : UploadedFile -> Z.

Hypothesis before_true : forall a b, before a b = true -> b <= a.
Hypothesis before_false : forall a b, before a b = false -> a <= b.

Let R := fun a b : UploadedFile => k b <= k a.

Lemma insert_desc_perm (x : UploadedFile) (l : list UploadedFile) :
  Permutation (Sql.insert_desc before k x l) (x :: l).
Proof.
  induction l as [|y l IH]; simpl; [reflexivity|].
  destruct (before (k x) (k y)); [reflexivity|].
  rewrite IH. apply perm_swap.
Qed.

Lemma sort_desc_perm (l : list UploadedFile) :
  Permutation (Sql.sort_desc before k l) l.
Proof.
  induction l as [|x l IH]; simpl; [reflexivity|].
  rewrite insert_desc_perm. apply perm_skip, IH.
Qed.

Lemma insert_desc_sorted (x : UploadedFile) (l : list UploadedFile) :
  StronglySorted R l -> StronglySorted R (Sql.insert_desc before k x l).
Proof.
  induction l as [|y l IH]; intros Hs; simpl.
  - constructor; constructor.
  - inversion Hs as [|? ? Hl Hy]; subst.
    destruct (before (k x) (k y)) eqn:E.
    + constructor; [exact Hs|].
      apply before_true in E. constructor; [exact E|].
      eapply List.Forall_impl; [|exact Hy]. unfold R. intros z Hz. simpl in *. lia.
    + constructor; [apply IH, Hl|].
      apply before_false in E.
      eapply Permutation_Forall; [symmetry; apply insert_desc_perm|].
      constructor; [exact E|exact Hy].
Qed.

Lemma sort_desc_sorted (l : list UploadedFile) :
  StronglySorted R (Sql.sort_desc before k l).
Proof.
  induction l as [|x l IH]; simpl; [constructor|].
  apply insert_desc_sorted, IH.
Qed.

End SortDesc.

Lemma earlier_first_laws : Sql.EngineLaws Sql.earlier_first.
Proof.
  split; intros k l.
  - apply sort_desc_perm.
  - apply sort_desc_sorted; intros a b H; lia.
Qed.

Lemma later_first_laws : Sql.EngineLaws Sql.later_first.
Proof.
  split; intros k l.
  - apply sort_desc_perm.
  - apply sort_desc_sorted; intros a b H; lia.
Qed.

(** With pairwise distinct keys there is one way to list rows by
    decreasing key. *)
Lemma sorted_desc_unique (k : UploadedFile -> Z) (l1 l2 : list UploadedFile) :
  StronglySorted (fun a b => k b <= k a) l1 ->
  StronglySorted (fun a b => k b <= k a) l2 ->
  Permutation l1 l2 ->
  List.NoDup (List.map k l1) ->
  l1 = l2.
Proof.
  revert l2. induction l1 as [|a l1 IH]; intros l2 H1 H2 HP Hnd.
  - apply Permutation_nil in HP. congruence.
  - destruct l2 as [|b l2]; [symmetry in HP; apply Permutation_nil in HP; discriminate|].
    inversion H1 as [|? ? Hs1 Ha]; subst. inversion H2 as [|? ? Hs2 Hb]; subst.
    inversion Hnd as [|? ? Hna Hnd']; subst.
    assert (Eab : a = b).
    { assert (Hin_a : In a (b :: l2))
        by (eapply Permutation_in; [exact HP|left; reflexivity]).
      assert (Hin_b : In b (a :: l1))
        by (eapply Permutation_in; [symmetry; exact HP|left; reflexivity]).
      destruct Hin_a as [E|Hin_a]; [congruence|].
      destruct Hin_b as [E|Hin_b]; [congruence|].
      rewrite List.Forall_forall in Ha, Hb.
      pose proof (Ha b Hin_b) as Le1. pose proof (Hb a Hin_a) as Le2.
      simpl in Le1, Le2.
      exfalso. apply Hna. replace (k a) with (k b) by lia.
      apply List.in_map, Hin_b. }
    subst b. f_equal. apply IH; auto.
    eapply Permutation_cons_inv, HP.
Qed.

(** Under pairwise distinct timestamps, every lawful engine lists the rows
    as the insertion sort by decreasing timestamp does. *)
Lemma listing_determined (E : Sql.Engine) (L : Sql.EngineLaws E)
      (l : list UploadedFile) :
  List.NoDup (List.map upload_timestamp l) ->
  Sql.order_by_desc upload_timestamp l = Sql.sort_desc Z.geb upload_timestamp l.
Proof.
  intros Hnd.
  pose proof (Sql.order_by_desc_perm upload_timestamp l) as HP.
  apply (sorted_desc_unique upload_timestamp).
  - apply Sql.order_by_desc_sorted.
  - apply sort_desc_sorted; intros a b H; lia.
  - rewrite HP. symmetry. apply sort_desc_perm.
  - eapply Permutation_NoDup; [|exact Hnd].
    apply Permutation_map. symmetry. exact HP.
Qed.

(** C6, as amended: for every engine that keeps the promise of
    [ORDER BY ... DESC], the listing is the table's rows by decreasing
    [upload_timestamp]; the query has no second key, so the order of rows
    with equal timestamps is the engine's.  When the timestamps are pairwise
    distinct the listing is determined. *)
Theorem listing_sorted_desc (E : Sql.Engine) (L : Sql.EngineLaws E) (w : world) :
  exists l,
    get_all_uploaded_files w = (Ok l, w)
    /\ Permutation l (rows w)
    /\ StronglySorted (fun a b => upload_timestamp b <= upload_timestamp a) l
    /\ (List.NoDup (List.map upload_timestamp (rows w)) ->
        l = Sql.sort_desc Z.geb upload_timestamp (rows w)).
Proof.
  exists (Sql.order_by_desc upload_timestamp (rows w)).
  split; [reflexivity|].
  split; [apply Sql.order_by_desc_perm|].
  split; [apply Sql.order_by_desc_sorted|].
  apply listing_determined, L.
Qed.

Lemma listing_sorted_desc_witness :
  exists l,
    @get_all_uploaded_files Sql.later_first Sample.thrice = (Ok l, Sample.thrice)
    /\ Permutation l (rows Sample.thrice)
    /\ StronglySorted (fun a b => upload_timestamp b <= upload_timestamp a) l
    /\ (List.NoDup (List.map upload_timestamp (rows Sample.thrice)) ->
        l = Sql.sort_desc Z.geb upload_timestamp (rows Sample.thrice)).
Proof.
  exact (listing_sorted_desc Sql.later_first later_first_laws Sample.thrice).
Defined.

(** Three uploads at successive instants are listed latest first, whatever
    the engine. *)
Lemma listing_three_uploads (E : Sql.Engine) (L : Sql.EngineLaws E) :
  exists l,
    get_all_uploaded_files Sample.thrice = (Ok l, Sample.thrice)
    /\ List.map id_ (rows Sample.thrice) = [Some 1; Some 2; Some 3]
    /\ List.map upload_timestamp (rows Sample.thrice) = [7; 8; 9]
    /\ List.map id_ l = [Some 3; Some 2; Some 1].
Proof.
  eexists. split; [reflexivity|].
  split; [vm_compute; reflexivity|]. split; [vm_compute; reflexivity|].
  rewrite (listing_determined E L).
  - vm_compute. reflexivity.
  - vm_compute. repeat constructor; simpl; intuition discriminate.
Qed.

(** C6, as stated, fails: after two uploads at the same instant, an engine
    that keeps the promise of [ORDER BY] lists the later row first, and
    another one the earlier row first. *)
Lemma listing_ties_counterexample :
  Sql.EngineLaws Sql.later_first
  /\ List.map upload_timestamp (rows Sample.twice) = [7; 7]
  /\ List.map id_ (rows Sample.twice) = [Some 1; Some 2]
  /\ (exists l, @get_all_uploaded_files Sql.later_first Sample.twice
                = (Ok l, Sample.twice)
                /\ List.map id_ l = [Some 2; Some 1]
                /\ ~ stable upload_timestamp (rows Sample.twice) l)
  /\ (exists l, @get_all_uploaded_files Sql.earlier_first Sample.twice
                = (Ok l, Sample.twice)
                /\ List.map id_ l = [Some 1; Some 2]).
Proof.
  split; [exact later_first_laws|].
  split; [vm_compute; reflexivity|]. split; [vm_compute; reflexivity|].
  split.
  - eexists. split; [reflexivity|]. split; [vm_compute; reflexivity|].
    intros H. specialize (H 7). vm_compute in H. discriminate.
  - eexists. split; [reflexivity|]. vm_compute. reflexivity.
Qed.

(** * More about the upload functions *)


Lemma same_table_refl (w : world) : same_table w w.
Proof. repeat split. Qed.

Lemma same_table_trans (w1 w2 w3 : world) :
  same_table w1 w2 -> same_table w2 w3 -> same_table w1 w3.
Proof. intros (A & B & C) (D & E & F). repeat split; congruence. Qed.

(** The file system operations leave the table alone. *)
Lemma mkdir_table (p : Pathlib.path) (w : world) :
  same_table w (snd (Os.mkdir_exist_ok p w)).
Proof.
  unfold Os.mkdir_exist_ok.
  destruct (Os.locate w p) as [l|]; [|apply same_table_refl].
  destruct (files w !! l) as [[|c]|]; repeat split.
Qed.

Lemma open_wb_table (p : Pathlib.path) (w : world) :
  same_table w (snd (Os.open_wb p w)).
Proof.
  unfold Os.open_wb.
  destruct (Os.locate w p) as [l|]; [|apply same_table_refl].
  destruct (files w !! l) as [[|c]|]; repeat split.
Qed.

Lemma write_table (e : env) (f : list string) (c : list byte) (w : world) :
  same_table w (snd (Os.write e f c w)).
Proof. unfold Os.write. destruct (write_fault e); repeat split. Qed.

Lemma unlink_table (e : env) (p : Pathlib.path) (w : world) :
  same_table w (snd (Os.unlink e p w)).
Proof.
  unfold Os.unlink. destruct (unlink_fault e); [apply same_table_refl|].
  destruct (Os.locate w p) as [l|]; [|apply same_table_refl].
  destruct (files w !! l) as [[|c]|]; repeat split.
Qed.

(** The [except] branch never returns a record and leaves the table alone. *)
Lemma cleanup_table (e : env) (p : Pathlib.path) (w : world) :
  let out := (b ← Os.exists_ p;
              (if b : bool then Os.unlink e p else ret tt);;
              ret (@None UploadedFile)) w in
  same_table w (snd out) /\ forall r, fst out <> Ok (Some r).
Proof.
  run. unfold Os.exists_. cbv beta iota zeta.
  destruct (Os.stat w p) as [n|].
  - pose proof (unlink_table e p w) as H.
    destruct (Os.unlink e p w) as [[[]|ex] w']; split; try exact H;
      intros r; discriminate.
  - split; [apply same_table_refl|intros r; discriminate].
Qed.

(** Whatever happens during a call, the table either stays as it was, with
    no record returned, or gains the returned record as its last row. *)
Lemma save_uploaded_file_table (e : env) (u : fastapi.UploadFile) (w : world) :
  let out := save_uploaded_file e u w in
  cwd (snd out) = cwd w
  /\ ((rows (snd out) = rows w /\ next_id (snd out) = next_id w
       /\ forall r, fst out <> Ok (Some r))
      \/ exists filename,
           fastapi.filename u = Some filename
           /\ len_bytes (fastapi.file u) <= MAX_FILE_SIZE
           /\ Sql.has_stored (generate_unique_filename e filename) (rows w) = false
           /\ fst out
              = Ok (Some (stored_record e filename (fastapi.content_type u)
                                        (fastapi.file u) (Some (next_id w))))
           /\ rows (snd out)
              = rows w ++ [stored_record e filename (fastapi.content_type u)
                                         (fastapi.file u) (Some (next_id w))]
           /\ next_id (snd out) = next_id w + 1).
Proof.
  cbv zeta. destruct (save_uploaded_file e u w) as [o w'] eqn:H.
  cbn [fst snd]. revert H.
  assert (Hleft : forall x, same_table w x -> (forall r, o <> Ok (Some r)) ->
             x = w' ->
             cwd w' = cwd w
             /\ ((rows w' = rows w /\ next_id w' = next_id w
                  /\ forall r, o <> Ok (Some r))
                 \/ exists filename,
                      fastapi.filename u = Some filename
                      /\ len_bytes (fastapi.file u) <= MAX_FILE_SIZE
                      /\ Sql.has_stored (generate_unique_filename e filename) (rows w)
                         = false
                      /\ o = Ok (Some (stored_record e filename
                                         (fastapi.content_type u)
                                         (fastapi.file u) (Some (next_id w))))
                      /\ rows w'
                         = rows w ++ [stored_record e filename
                                        (fastapi.content_type u)
                                        (fastapi.file u) (Some (next_id w))]
                      /\ next_id w' = next_id w + 1)).
  { intros x (A & B & C) Hno <-. split; [exact A|]. left. auto. }
  assert (Hclean : forall p x, same_table w x ->
             (b ← Os.exists_ p;
              (if b : bool then Os.unlink e p else ret tt);;
              ret (@None UploadedFile)) x = (o, w') ->
             cwd w' = cwd w
             /\ ((rows w' = rows w /\ next_id w' = next_id w
                  /\ forall r, o <> Ok (Some r))
                 \/ exists filename,
                      fastapi.filename u = Some filename
                      /\ len_bytes (fastapi.file u) <= MAX_FILE_SIZE
                      /\ Sql.has_stored (generate_unique_filename e filename) (rows w)
                         = false
                      /\ o = Ok (Some (stored_record e filename
                                         (fastapi.content_type u)
                                         (fastapi.file u) (Some (next_id w))))
                      /\ rows w'
                         = rows w ++ [stored_record e filename
                                        (fastapi.content_type u)
                                        (fastapi.file u) (Some (next_id w))]
                      /\ next_id w' = next_id w + 1)).
  { intros p x Tx Hx. destruct (cleanup_table e p x) as [T Hno].
    rewrite Hx in T, Hno. cbn [fst snd] in T, Hno.
    apply (Hleft w'); [|exact Hno|reflexivity].
    eapply same_table_trans; [exact Tx|exact T]. }
  unfold save_uploaded_file.
  destruct (fastapi.filename u) as [filename|] eqn:Hname.
  2:{ intros H. injection H as <- <-.
      apply (Hleft w); [apply same_table_refl|intros r; discriminate|reflexivity]. }
  rewrite Z.gtb_ltb.
  destruct (Z.ltb_spec MAX_FILE_SIZE (len_bytes (fastapi.file u))) as [Hlt|Hle].
  { intros H. injection H as <- <-.
    apply (Hleft w); [apply same_table_refl|intros r; discriminate|reflexivity]. }
  set (s := generate_unique_filename e filename).
  set (p := Pathlib.truediv UPLOADS_DIR s).
  unfold mbind at 1, M_bind at 1, bind at 1.
  pose proof (mkdir_table UPLOADS_DIR w) as T1.
  unfold ensure_uploads_directory.
  destruct (Os.mkdir_exist_ok UPLOADS_DIR w) as [[[]|ex] w1]; cbn [snd] in T1.
  2:{ intros H. injection H as <- <-.
      apply (Hleft w1); [exact T1|intros r; discriminate|reflexivity]. }
  unfold try_except.
  unfold mbind at 1, M_bind at 1, bind at 1.
  pose proof (open_wb_table p w1) as T2.
  destruct (Os.open_wb p w1) as [[f|ex] w2]; cbn [snd] in T2.
  2:{ apply Hclean. eapply same_table_trans; [exact T1|exact T2]. }
  unfold mbind at 1, M_bind at 1, bind at 1.
  pose proof (write_table e f (fastapi.file u) w2) as T3.
  destruct (Os.write e f (fastapi.file u) w2) as [[[]|ex] w3]; cbn [snd] in T3.
  2:{ apply Hclean. eapply same_table_trans; [exact T1|].
      eapply same_table_trans; [exact T2|exact T3]. }
  assert (T13 : same_table w w3).
  { eapply same_table_trans; [exact T1|].
    eapply same_table_trans; [exact T2|exact T3]. }
  pose proof T13 as (Ec & Er & En).
  unfold mbind at 1, M_bind at 1, bind at 1, Sql.add_commit_refresh.
  cbn [stored_filename]. fold s. rewrite Er.
  destruct (db_fault e); [apply Hclean, T13|].
  destruct (Sql.has_stored s (rows w)) eqn:Hfresh; [apply Hclean, T13|].
  unfold mret, M_ret, ret. intros H. injection H as <- <-.
  split; [exact Ec|].
  right. exists filename. unfold stored_record, Sql.with_id, Sql.set_rows.
  cbn [fst snd rows next_id id_ original_filename stored_filename file_size
       content_type upload_timestamp public_url].
  rewrite ?Er, ?En. subst s. repeat split; auto.
Qed.

(** X1: whenever an upload returns a record, the record describes that
    upload: the given filename, the number of bytes (at most
    [MAX_FILE_SIZE]), the generated name and the URL built from it, the
    clock's time and the next primary key; and it is the new last row. *)
Theorem returned_record (e : env) (u : fastapi.UploadFile) (w w' : world)
        (r : UploadedFile) :
  save_uploaded_file e u w = (Ok (Some r), w') ->
  exists filename,
    fastapi.filename u = Some filename
    /\ original_filename r = filename
    /\ stored_filename r = generate_unique_filename e filename
    /\ public_url r = "/files/" +:+ stored_filename r
    /\ file_size r = len_bytes (fastapi.file u)
    /\ file_size r <= MAX_FILE_SIZE
    /\ upload_timestamp r = utcnow e
    /\ id_ r = Some (next_id w)
    /\ rows w' = rows w ++ [r]
    /\ next_id w' = next_id w + 1.
Proof.
  intros H. pose proof (save_uploaded_file_table e u w) as T.
  rewrite H in T. cbn [fst snd] in T.
  destruct T as [_ [(_ & _ & Hno)|(filename & Hn & Hs & _ & Hr & Hrows & Hid)]].
  - exfalso. exact (Hno r eq_refl).
  - injection Hr as ->. exists filename. repeat split; auto.
Qed.

Lemma returned_record_witness :
  exists filename,
    fastapi.filename Sample.hello = Some filename
    /\ original_filename
         (stored_record (Sample.quiet 7) "test.txt" (Some "text/plain")
                        (fastapi.file Sample.hello) (Some 1)) = filename
    /\ stored_filename
         (stored_record (Sample.quiet 7) "test.txt" (Some "text/plain")
                        (fastapi.file Sample.hello) (Some 1))
       = generate_unique_filename (Sample.quiet 7) filename
    /\ public_url
         (stored_record (Sample.quiet 7) "test.txt" (Some "text/plain")
                        (fastapi.file Sample.hello) (Some 1))
       = "/files/" +:+ "00000000-0000-4000-8000-000000000000.txt"
    /\ file_size
         (stored_record (Sample.quiet 7) "test.txt" (Some "text/plain")
                        (fastapi.file Sample.hello) (Some 1)) = 15.
Proof.
  destruct (returned_record (Sample.quiet 7) Sample.hello Sample.srv
              (snd (save_uploaded_file (Sample.quiet 7) Sample.hello Sample.srv))
              (stored_record (Sample.quiet 7) "test.txt" (Some "text/plain")
                             (fastapi.file Sample.hello) (Some 1)))
    as (filename & H1 & H2 & H3 & H4 & H5 & _).
  - vm_compute. reflexivity.
  - exists filename. repeat split; assumption.
Defined.


Lemma NoDup_snoc {A} (l : list A) (a : A) :
  List.NoDup l -> ~ In a l -> List.NoDup (l ++ [a]).
Proof.
  intros Hl Ha. eapply Permutation_NoDup; [apply Permutation_cons_append|].
  constructor; assumption.
Qed.

(** The stored names and the primary keys of the table stay pairwise
    distinct through any one call. *)
Lemma keys_apart_step (e : env) (u : fastapi.UploadFile) (w : world) :
  keys_apart w -> keys_apart (snd (save_uploaded_file e u w)).
Proof.
  intros (Hs & Hi & Hb).
  pose proof (save_uploaded_file_table e u w) as T. cbv zeta in T.
  destruct (save_uploaded_file e u w) as [o w']. cbn [fst snd] in *.
  destruct T as [_ [(Hr & Hn & _)|(filename & _ & _ & Hfresh & _ & Hr & Hn)]];
    unfold keys_apart; rewrite Hr, Hn; [auto|].
  assert (Hnew : forall x, In x (rows w) ->
                   stored_filename x <> generate_unique_filename e filename).
  { intros x Hx E. unfold Sql.has_stored in Hfresh.
    assert (Ht : List.existsb
                   (fun r => String.eqb (stored_filename r)
                               (generate_unique_filename e filename)) (rows w)
                 = true).
    { apply List.existsb_exists. exists x. split; [exact Hx|].
      apply String.eqb_eq, E. }
    congruence. }
  rewrite List.Forall_forall in Hb.
  rewrite !List.map_app. cbn [List.map stored_record stored_filename id_].
  repeat split.
  - apply NoDup_snoc; [exact Hs|].
    intros Hx. apply List.in_map_iff in Hx as (y & E & Hy).
    exact (Hnew y Hy E).
  - apply NoDup_snoc; [exact Hi|].
    intros Hx. apply List.in_map_iff in Hx as (y & E & Hy).
    destruct (Hb y Hy) as (i & Ei & Hlt). rewrite Ei in E.
    injection E as E. lia.
  - apply List.Forall_forall. intros x Hx.
    apply List.in_app_iff in Hx as [Hx|[<-|[]]].
    + destruct (Hb x Hx) as (i & Ei & Hlt). exists i. split; [exact Ei|lia].
    + exists (next_id w). split; [reflexivity|lia].
Qed.

Lemma sizes_bounded_step (e : env) (u : fastapi.UploadFile) (w : world) :
  sizes_bounded w -> sizes_bounded (snd (save_uploaded_file e u w)).
Proof.
  intros Hb.
  pose proof (save_uploaded_file_table e u w) as T. cbv zeta in T.
  destruct (save_uploaded_file e u w) as [o w']. cbn [fst snd] in *.
  destruct T as [_ [(Hr & _ & _)|(filename & _ & Hle & _ & _ & Hr & _)]];
    unfold sizes_bounded; rewrite Hr; [exact Hb|].
  apply List.Forall_app. split; [exact Hb|].
  constructor; [|constructor]. cbn [file_size stored_record].
  unfold len_bytes in *. lia.
Qed.

(** X3: through any series of uploads, whatever the inputs and the faults,
    no two rows of the table share a stored name or a primary key. *)
Theorem keys_stay_apart (calls : list (env * fastapi.UploadFile)) (w : world) :
  keys_apart w -> keys_apart (run_uploads calls w).
Proof.
  revert w. induction calls as [|[e u] calls IH]; intros w H; [exact H|].
  simpl. apply IH, keys_apart_step, H.
Qed.

Lemma keys_stay_apart_witness :
  keys_apart (run_uploads [(Sample.call 1 7, Sample.hello);
                           (Sample.call 1 8, Sample.hello);
                           (Sample.db_down 9, Sample.unnamed);
                           (Sample.call 2 9, Sample.unnamed)] Sample.srv).
Proof.
  apply keys_stay_apart. repeat split; simpl; constructor.
Defined.

(** X4: through any series of uploads every recorded size stays between 0
    and [MAX_FILE_SIZE], so the total the statistics report is at most
    [MAX_FILE_SIZE] per file. *)
Theorem sizes_stay_bounded (calls : list (env * fastapi.UploadFile)) (w : world) :
  sizes_bounded w ->
  sizes_bounded (run_uploads calls w)
  /\ exists n t,
       get_file_stats (run_uploads calls w)
       = (Ok {| total_files := n; total_size_bytes := t |}, run_uploads calls w)
       /\ 0 <= t <= n * MAX_FILE_SIZE.
Proof.
  intros H.
  assert (Hb : sizes_bounded (run_uploads calls w)).
  { revert w H. induction calls as [|[e u] calls IH]; intros w H; [exact H|].
    simpl. apply IH, sizes_bounded_step, H. }
  split; [exact Hb|]. eexists _, _. split; [reflexivity|].
  unfold sizes_bounded in Hb.
  induction Hb as [|r l Hr Hl IH]; [simpl; lia|].
  cbn [List.map List.fold_right List.length].
  unfold MAX_FILE_SIZE in *. lia.
Qed.

Lemma sizes_stay_bounded_witness :
  sizes_bounded (run_uploads [(Sample.call 1 7, Sample.hello);
                              (Sample.call 2 8, Sample.unnamed)] Sample.srv)
  /\ exists n t,
       get_file_stats (run_uploads [(Sample.call 1 7, Sample.hello);
                                    (Sample.call 2 8, Sample.unnamed)] Sample.srv)
       = (Ok {| total_files := n; total_size_bytes := t |},
          run_uploads [(Sample.call 1 7, Sample.hello);
                       (Sample.call 2 8, Sample.unnamed)] Sample.srv)
       /\ 0 <= t <= n * MAX_FILE_SIZE.
Proof.
  apply sizes_stay_bounded. constructor.
Defined.

(** X5: an upload touches two places of the file system at most, the
    uploads directory and the place of its own blob; everything else, the
    blobs of earlier uploads included, is as before, whatever the faults. *)
Theorem upload_frame (e : env) (u : fastapi.UploadFile) (w : world)
        (filename : string) (l : list string) :
  fastapi.filename u = Some filename ->
  len_bytes (fastapi.file u) <= MAX_FILE_SIZE ->
  can_store w (generate_unique_filename e filename) ->
  l <> uploads_loc w ->
  l <> blob_loc w (generate_unique_filename e filename) ->
  files (snd (save_uploaded_file e u w)) !! l = files w !! l.
Proof.
  intros Hname Hsize (Hcwd & Hup & Hblob) Hl1 Hl2.
  destruct (save_uploaded_file_run e u w filename Hname Hsize Hcwd Hup Hblob)
    as (t & _ & _ & Ht & Hrun).
  rewrite Hrun.
  destruct (write_fault e), (unlink_fault e), (db_fault e),
    (Sql.has_stored (generate_unique_filename e filename) (rows w));
    cbn [orb snd files];
    rewrite ?lookup_insert_ne, ?lookup_delete_ne by congruence;
    apply Ht, Hl1.
Qed.

Lemma upload_frame_witness :
  files (snd (save_uploaded_file (Sample.db_down 7) Sample.hello Sample.srv))
    !! ["srv"; "uploads"; "note.txt"]
  = files Sample.srv !! ["srv"; "uploads"; "note.txt"].
Proof.
  apply (upload_frame (Sample.db_down 7) Sample.hello Sample.srv "test.txt");
    try reflexivity; try (vm_compute; discriminate).
  split; [reflexivity|]. split; [intros c|]; vm_compute; discriminate.
Defined.

(** X6: when writing the blob fails, the call returns [None], the table is
    as before, and the file that [open] had created is removed again. *)
Theorem failed_write_leaves_nothing (e : env) (u : fastapi.UploadFile) (w : world)
        (filename : string) :
  fastapi.filename u = Some filename ->
  len_bytes (fastapi.file u) <= MAX_FILE_SIZE ->
  can_store w (generate_unique_filename e filename) ->
  write_fault e = true ->
  unlink_fault e = false ->
  exists w',
    save_uploaded_file e u w = (Ok None, w')
    /\ rows w' = rows w
    /\ Os.stat w' (Pathlib.truediv UPLOADS_DIR (generate_unique_filename e filename))
       = None.
Proof.
  intros Hname Hsize (Hcwd & Hup & Hblob) Hw Hu.
  destruct (save_uploaded_file_run e u w filename Hname Hsize Hcwd Hup Hblob)
    as (t & Ht1 & Ht2 & _ & Hrun).
  rewrite Hw, Hu in Hrun.
  destruct (generated_single e filename) as [HP Hdd].
  eexists. split; [exact Hrun|]. split; [reflexivity|].
  apply blob_lookup; auto.
  - rewrite lookup_delete_ne; [exact Ht1|]. symmetry. apply loc_ne_2.
  - rewrite lookup_delete_ne; [exact Ht2|]. symmetry. apply loc_ne_3.
  - apply lookup_delete_eq.
Qed.

Lemma failed_write_leaves_nothing_witness :
  let e := {| urandom := 0; utcnow := 7; guess_type := fun _ => None;
              write_fault := true; db_fault := false; unlink_fault := false |} in
  exists w',
    save_uploaded_file e Sample.hello Sample.srv = (Ok None, w')
    /\ rows w' = rows Sample.srv
    /\ Os.stat w' (Pathlib.truediv UPLOADS_DIR
                     (generate_unique_filename e "test.txt")) = None.
Proof.
  intros e.
  apply (failed_write_leaves_nothing e Sample.hello Sample.srv "test.txt");
    try reflexivity.
  - vm_compute. discriminate.
  - split; [reflexivity|]. split; [intros c|]; vm_compute; discriminate.
Defined.

(** X7: when ["uploads"] exists as a regular file, [ensure_uploads_directory]
    raises [FileExistsError]; it is called outside the [try], so both upload
    functions raise it too instead of returning [None], and nothing changes. *)
Theorem uploads_not_a_directory (e : env) (u : fastapi.UploadFile) (w : world)
        (filename : string) (c : list byte) :
  fastapi.filename u = Some filename ->
  len_bytes (fastapi.file u) <= MAX_FILE_SIZE ->
  files w !! cwd w = Some Dir ->
  files w !! uploads_loc w = Some (File c) ->
  ensure_uploads_directory w = (Raise FileExistsError, w)
  /\ save_uploaded_file e u w = (Raise FileExistsError, w)
  /\ save_upload_event e (as_event u) w = (Raise FileExistsError, w).
Proof.
  intros Hname Hsize Hcwd Hup.
  assert (E : ensure_uploads_directory w = (Raise FileExistsError, w)).
  { unfold ensure_uploads_directory, Os.mkdir_exist_ok.
    rewrite (locate_uploads w Hcwd), Hup. reflexivity. }
  split; [exact E|]. rewrite save_upload_event_as_event.
  assert (S : save_uploaded_file e u w = (Raise FileExistsError, w));
    [|split; exact S].
  unfold save_uploaded_file. rewrite Hname, Z.gtb_ltb.
  destruct (Z.ltb_spec MAX_FILE_SIZE (len_bytes (fastapi.file u))); [lia|].
  unfold mbind at 1, M_bind at 1, bind at 1. rewrite E. reflexivity.
Qed.

Lemma uploads_not_a_directory_witness :
  let w := {| files := list_to_map [([], Dir); (["uploads"], File [])];
              cwd := []; rows := []; next_id := 1 |} in
  ensure_uploads_directory w = (Raise FileExistsError, w)
  /\ save_uploaded_file (Sample.quiet 7) Sample.hello w = (Raise FileExistsError, w)
  /\ save_upload_event (Sample.quiet 7) (as_event Sample.hello) w
     = (Raise FileExistsError, w).
Proof.
  intros w.
  apply (uploads_not_a_directory (Sample.quiet 7) Sample.hello w "test.txt" []);
    try reflexivity.
  vm_compute. discriminate.
Defined.

(** X8: [ensure_uploads_directory] is idempotent: once it has succeeded, the
    uploads directory exists and a further call succeeds and changes
    nothing. *)
Theorem ensure_uploads_directory_idempotent (w w1 : world) :
  ensure_uploads_directory w = (Ok tt, w1) ->
  Os.stat w1 UPLOADS_DIR = Some Dir
  /\ ensure_uploads_directory w1 = (Ok tt, w1).
Proof.
  unfold ensure_uploads_directory, Os.mkdir_exist_ok, Os.stat, Os.locate.
  rewrite UPLOADS_DIR_parts. cbn [Pathlib.absolute Pathlib.parts Os.walk].
  destruct (files w !! cwd w) as [[|c]|] eqn:Hc; try discriminate.
  change (Os.step (cwd w) "uploads") with (uploads_loc w).
  destruct (files w !! uploads_loc w) as [[|c]|] eqn:Hu; try discriminate;
    intros H; injection H as <-.
  - rewrite Hc. change (Os.step (cwd w) "uploads") with (uploads_loc w).
    rewrite Hu. split; reflexivity.
  - cbn [files cwd Os.set_files].
    rewrite lookup_insert_ne by (symmetry; apply loc_ne_1).
    rewrite Hc. change (Os.step (cwd w) "uploads") with (uploads_loc w).
    rewrite lookup_insert_eq. split; reflexivity.
Qed.

Lemma ensure_uploads_directory_idempotent_witness :
  let w := {| files := list_to_map [([], Dir); (["tmp"], Dir)];
              cwd := ["tmp"]; rows := []; next_id := 1 |} in
  Os.stat w UPLOADS_DIR = None
  /\ Os.stat (snd (ensure_uploads_directory w)) UPLOADS_DIR = Some Dir
  /\ ensure_uploads_directory (snd (ensure_uploads_directory w))
     = (Ok tt, snd (ensure_uploads_directory w)).
Proof.
  intros w. split; [vm_compute; reflexivity|].
  apply (ensure_uploads_directory_idempotent w). vm_compute. reflexivity.
Defined.

(** X9: the content type recorded for an upload is never empty: it is the
    declared type when that is a non-empty string; otherwise the type guessed
    from the filename, when there is a non-empty one; otherwise
    ["application/octet-stream"].  An empty declared type counts as none. *)
Theorem recorded_content_type (e : env) (u : fastapi.UploadFile) (w w' : world)
        (r : UploadedFile) (filename : string) :
  save_uploaded_file e u w = (Ok (Some r), w') ->
  fastapi.filename u = Some filename ->
  content_type r <> ""
  /\ content_type r
     = match fastapi.content_type u, guess_type e filename with
       | Some (String a d), _ => String a d
       | _, Some (String a g) => String a g
       | _, _ => "application/octet-stream"
       end.
Proof.
  intros H Hname. pose proof (save_uploaded_file_table e u w) as T.
  rewrite H in T. cbn [fst snd] in T.
  destruct T as [_ [(_ & _ & Hno)|(fn & Hn & _ & _ & Hr & _)]];
    [exfalso; exact (Hno r eq_refl)|].
  assert (fn = filename) as -> by congruence.
  injection Hr as ->. cbn [content_type stored_record].
  unfold resolve_content_type, Py.or_, Py.truthy.
  destruct (fastapi.content_type u) as [[|a d]|],
           (guess_type e filename) as [[|b g]|]; split; congruence.
Qed.

Lemma recorded_content_type_witness :
  content_type (stored_record (Sample.quiet 7) "" None
                              (fastapi.file Sample.unnamed) (Some 1))
  = "application/octet-stream".
Proof.
  apply (recorded_content_type (Sample.quiet 7) Sample.unnamed Sample.srv
           (snd (save_uploaded_file (Sample.quiet 7) Sample.unnamed Sample.srv))
           _ "").
  - vm_compute. reflexivity.
  - reflexivity.
Defined.

(** * Generated names *)

Lemma hex_digit_inj (a b : Z) :
  0 <= a < 16 -> 0 <= b < 16 ->
  Uuid.hex_digit a = Uuid.hex_digit b -> a = b.
Proof.
  intros Ha Hb.
  assert (Ea : a = 0 \/ a = 1 \/ a = 2 \/ a = 3 \/ a = 4 \/ a = 5 \/ a = 6
               \/ a = 7 \/ a = 8 \/ a = 9 \/ a = 10 \/ a = 11 \/ a = 12
               \/ a = 13 \/ a = 14 \/ a = 15) by lia.
  assert (Eb : b = 0 \/ b = 1 \/ b = 2 \/ b = 3 \/ b = 4 \/ b = 5 \/ b = 6
               \/ b = 7 \/ b = 8 \/ b = 9 \/ b = 10 \/ b = 11 \/ b = 12
               \/ b = 13 \/ b = 14 \/ b = 15) by lia.
  clear Ha Hb.
  repeat (destruct Ea as [->|Ea]); try subst a;
    repeat (destruct Eb as [->|Eb]); try subst b;
    vm_compute; intros H; first [reflexivity|discriminate].
Qed.

Lemma map_eq_pointwise {A B} (f g : A -> B) (l : list A) :
  List.map f l = List.map g l -> forall x, In x l -> f x = g x.
Proof.
  induction l as [|a l IH]; intros H x Hx; [destruct Hx|].
  simpl in H. injection H as H1 H2.
  destruct Hx as [<-|Hx]; auto.
Qed.

(** The rendering of a UUID keeps all of its 128 bits. *)
Lemma hex32_inj (n m : Z) :
  0 <= n < 2 ^ 128 -> 0 <= m < 2 ^ 128 ->
  Uuid.hex32 n = Uuid.hex32 m -> n = m.
Proof.
  intros Hn Hm H. unfold Uuid.hex32 in H.
  pose proof (map_eq_pointwise _ _ _ H) as Hp. clear H.
  apply Z.bits_inj'. intros k Hk.
  destruct (Z.lt_ge_cases k 128) as [Hlt|Hge].
  - assert (Hi : In (Z.to_nat (31 - k / 4)) (List.seq 0 32)).
    { apply List.in_seq. split; [lia|].
      assert (0 <= k / 4 <= 31) by (Z.div_mod_to_equations; lia). lia. }
    specialize (Hp _ Hi). cbv beta in Hp.
    assert (0 <= k / 4 <= 31) as Hq by (Z.div_mod_to_equations; lia).
    replace (4 * (31 - Z.of_nat (Z.to_nat (31 - k / 4)))) with (4 * (k / 4))
      in Hp by lia.
    change 15 with (Z.ones 4) in Hp. rewrite !Z.land_ones in Hp by lia.
    apply hex_digit_inj in Hp; try (apply Z.mod_pos_bound; lia).
    assert (Hk4 : k = k mod 4 + 4 * (k / 4)).
    { pose proof (Z.div_mod k 4 ltac:(lia)). lia. }
    assert (Hm4 : 0 <= k mod 4 < 4) by (apply Z.mod_pos_bound; lia).
    assert (Hb : forall x, Z.testbit x k
                           = Z.testbit (Z.shiftr x (4 * (k / 4)) mod 2 ^ 4) (k mod 4)).
    { intros x. rewrite Z.mod_pow2_bits_low by lia.
      rewrite Z.shiftr_spec by lia. rewrite <- Hk4. reflexivity. }
    rewrite (Hb n), (Hb m), Hp. reflexivity.
  - rewrite <- (Z.mod_small n (2 ^ 128)), <- (Z.mod_small m (2 ^ 128)) by lia.
    rewrite !Z.mod_pow2_bits_high by lia. reflexivity.
Qed.

Lemma str_hex32 (n m : Z) : Uuid.str n = Uuid.str m -> Uuid.hex32 n = Uuid.hex32 m.
Proof.
  intros H. apply (f_equal list_ascii_of_string) in H. unfold Uuid.str in H.
  rewrite !list_ascii_of_string_of_list_ascii in H.
  assert (G : forall k,
    let L := List.firstn 8 (Uuid.hex32 k) ++ ["-"%char] ++
             List.firstn 4 (List.skipn 8 (Uuid.hex32 k)) ++ ["-"%char] ++
             List.firstn 4 (List.skipn 12 (Uuid.hex32 k)) ++ ["-"%char] ++
             List.firstn 4 (List.skipn 16 (Uuid.hex32 k)) ++ ["-"%char] ++
             List.skipn 20 (Uuid.hex32 k) in
    List.firstn 8 L ++ List.firstn 4 (List.skipn 9 L)
    ++ List.firstn 4 (List.skipn 14 L) ++ List.firstn 4 (List.skipn 19 L)
    ++ List.skipn 24 L = Uuid.hex32 k).
  { intros k. unfold Uuid.hex32.
    set (f := fun i : nat => _). cbn [List.seq List.map]. reflexivity. }
  rewrite <- (G n), <- (G m). cbv zeta. rewrite H. reflexivity.
Qed.

Lemma uuid4_int_range (r : Z) : 0 <= Uuid.uuid4_int r < 2 ^ 128.
Proof.
  unfold Uuid.uuid4_int. cbv zeta.
  set (i0 := r mod 2 ^ 128).
  assert (H0 : 0 <= i0 < 2 ^ 128) by (apply Z.mod_pos_bound; lia).
  set (x := Z.lor _ _).
  assert (Hx : 0 <= x).
  { unfold x. apply Z.lor_nonneg. split; [|vm_compute; discriminate].
    apply Z.land_nonneg. left. apply Z.lor_nonneg.
    split; [|vm_compute; discriminate]. apply Z.land_nonneg. left. lia. }
  split; [exact Hx|].
  assert (E : x = x mod 2 ^ 128); [|rewrite E; apply Z.mod_pos_bound; lia].
  apply Z.bits_inj'. intros k Hk.
  destruct (Z.lt_ge_cases k 128) as [Hlt|Hge].
  - rewrite Z.mod_pow2_bits_low by lia. reflexivity.
  - rewrite Z.mod_pow2_bits_high by lia. unfold x.
    rewrite Z.lor_spec, Z.land_spec, Z.lor_spec, Z.land_spec.
    assert (B0 : Z.testbit i0 k = false).
    { unfold i0. apply Z.mod_pow2_bits_high. lia. }
    assert (B1 : Z.testbit (Z.shiftl 32768 48) k = false).
    { rewrite Z.shiftl_spec by lia. apply Z.bits_above_log2; [lia|].
      change (Z.log2 32768) with 15. lia. }
    assert (B2 : Z.testbit (Z.shiftl 4 76) k = false).
    { rewrite Z.shiftl_spec by lia. apply Z.bits_above_log2; [lia|].
      change (Z.log2 4) with 2. lia. }
    rewrite B0, B1, B2. reflexivity.
Qed.

Lemma string_app_inj_l (a b c d : string) :
  String.length a = String.length b -> a +:+ c = b +:+ d -> a = b.
Proof.
  revert b. induction a as [|x a IH]; intros [|y b] Hl H; try discriminate.
  - reflexivity.
  - change (String x (a +:+ c) = String y (b +:+ d)) in H.
    injection H as -> H. injection Hl as Hl. f_equal. apply (IH b Hl H).
Qed.

(** X10: two calls whose UUIDs differ never produce the same stored name,
    whatever the two original filenames are. *)
Theorem distinct_uuids_distinct_names (e1 e2 : env) (fn1 fn2 : string) :
  Uuid.uuid4_int (urandom e1) <> Uuid.uuid4_int (urandom e2) ->
  generate_unique_filename e1 fn1 <> generate_unique_filename e2 fn2.
Proof.
  intros Hne H. apply Hne. unfold generate_unique_filename in H.
  apply string_app_inj_l in H; [|rewrite !str_length; reflexivity].
  apply hex32_inj; [apply uuid4_int_range..|]. apply str_hex32, H.
Qed.

Lemma distinct_uuids_distinct_names_witness :
  generate_unique_filename (Sample.call 1 7) "test.txt"
  <> generate_unique_filename (Sample.call 2 7) "test.txt"
  /\ generate_unique_filename (Sample.call 1 7) "test.txt"
     = "00000000-0000-4000-8000-000000000001.txt".
Proof.
  split; [|reflexivity].
  apply (distinct_uuids_distinct_names (Sample.call 1 7) (Sample.call 2 7)).
  vm_compute. discriminate.
Defined.

(** X11: whatever the original filename holds (separators, [".."], an
    absolute path), the generated name is one plain path component of 36
    characters plus the suffix, and the file path built from it is the entry
    of that name directly inside the uploads directory. *)
Theorem generated_name_stays_in_uploads (e : env) (fn : string) (w : world) :
  files w !! cwd w = Some Dir ->
  files w !! uploads_loc w = Some Dir ->
  Py.contains "/" (generate_unique_filename e fn) = false
  /\ generate_unique_filename e fn <> ".."
  /\ Py.len (generate_unique_filename e fn)
     = 36 + Py.len (Pathlib.suffix (Pathlib.Path fn))
  /\ Os.locate w (Pathlib.truediv UPLOADS_DIR (generate_unique_filename e fn))
     = Some (uploads_loc w ++ [generate_unique_filename e fn]).
Proof.
  intros Hc Hu. destruct (generated_single e fn) as [HP Hdd].
  split; [apply generated_no_sep|]. split; [exact Hdd|]. split.
  - unfold generate_unique_filename. rewrite len_app. unfold Py.len at 1.
    rewrite str_length. reflexivity.
  - rewrite (truediv_single _ HP), (locate_blob w _ Hdd Hc Hu).
    unfold blob_loc, uploads_loc. rewrite <- List.app_assoc. reflexivity.
Qed.

Lemma generated_name_stays_in_uploads_witness :
  generate_unique_filename (Sample.quiet 7) "../../etc/cron.d/job.sh"
  = "00000000-0000-4000-8000-000000000000.sh"
  /\ Os.locate Sample.srv
       (Pathlib.truediv UPLOADS_DIR
          (generate_unique_filename (Sample.quiet 7) "../../etc/cron.d/job.sh"))
     = Some (uploads_loc Sample.srv
             ++ [generate_unique_filename (Sample.quiet 7) "../../etc/cron.d/job.sh"]).
Proof.
  split; [reflexivity|].
  apply (generated_name_stays_in_uploads (Sample.quiet 7)
           "../../etc/cron.d/job.sh" Sample.srv); reflexivity.
Defined.

(** * The public file route *)


Lemma route_files_segment (url name : string) :
  route_files url = Some name ->
  Py.contains "/" name = false /\ name <> "".
Proof.
  unfold route_files. destruct (strip_prefix "/files/" url) as [[|a r]|];
    try discriminate.
  destruct (Py.contains "/" (String a r)) eqn:E; [discriminate|].
  intros H. injection H as <-. split; [exact E|discriminate].
Qed.

(** A relative path without [".."] that resolves leads under the uploads
    directory. *)
Lemma relative_inside (s : string) (w : world) (l : list string) :
  Py.startswith "/" s = false ->
  ~ In ".." (Py.split "/" s) ->
  Os.locate w (Pathlib.truediv UPLOADS_DIR s) = Some l ->
  inside_uploads w (Pathlib.truediv UPLOADS_DIR s).
Proof.
  intros Habs Hdd Hl. unfold inside_uploads. rewrite Hl.
  unfold Os.locate, Pathlib.truediv in Hl.
  change (Pathlib.absolute (Pathlib.Path s)) with (Py.startswith "/" s) in Hl.
  rewrite Habs in Hl. simpl in Hl.
  destruct (files w !! cwd w) as [[|c]|] eqn:Hc; try discriminate.
  rewrite (locate_uploads w Hc).
  apply walk_descends in Hl.
  - exists (List.filter Pathlib.keep_part (Py.split "/" s)).
    rewrite Hl. unfold uploads_loc, Os.step. simpl.
    rewrite <- List.app_assoc. reflexivity.
  - apply List.Forall_forall. intros c Hin ->.
    apply List.filter_In in Hin as [Hin _]. exact (Hdd Hin).
Qed.

Lemma serve_file_inv (name : string) (w w' : world) (p : Pathlib.path) :
  serve_file name w = (Ok (FileResponse p), w') ->
  get_file_path name w = (Ok (Some p), w').
Proof.
  unfold serve_file. run.
  destruct (get_file_path name w) as [[[q|]|ex] w1]; intros H;
    inversion H; subst; reflexivity.
Qed.

(** X12: a request that the route ["/files/{filename}"] accepts is answered
    from inside the uploads directory, unless the segment is [".."]: the
    route admits no ['/'], so no other name can lead out. *)
Theorem served_from_uploads (url name : string) (w w' : world) (p : Pathlib.path) :
  route_files url = Some name ->
  name <> ".." ->
  serve_file name w = (Ok (FileResponse p), w') ->
  w' = w /\ inside_uploads w p.
Proof.
  intros Hroute Hdd H. apply serve_file_inv in H.
  destruct (get_file_path_inv name w w' p H) as (-> & -> & l & Hl).
  split; [reflexivity|].
  destruct (route_files_segment url name Hroute) as [Hs Hne].
  apply (relative_inside name w l); [| |exact Hl].
  - destruct name as [|a r]; [reflexivity|]. simpl in *.
    apply orb_false_iff in Hs as [Hs _]. exact Hs.
  - rewrite (split_without_sep _ _ Hs). intros [E|[]]. congruence.
Qed.

Lemma served_from_uploads_witness :
  route_files "/files/note.txt" = Some "note.txt"
  /\ serve_file "note.txt" Sample.srv
     = (Ok (FileResponse (Pathlib.truediv UPLOADS_DIR "note.txt")), Sample.srv)
  /\ inside_uploads Sample.srv (Pathlib.truediv UPLOADS_DIR "note.txt").
Proof.
  assert (H : serve_file "note.txt" Sample.srv
              = (Ok (FileResponse (Pathlib.truediv UPLOADS_DIR "note.txt")),
                 Sample.srv)) by (vm_compute; reflexivity).
  split; [reflexivity|]. split; [exact H|].
  apply (served_from_uploads "/files/note.txt" "note.txt" Sample.srv Sample.srv);
    [reflexivity|discriminate|exact H].
Defined.

(** X13: the segment [".."] is accepted by the route, and wherever the
    uploads directory exists [serve_file] answers it with the path
    [uploads/..], the directory that holds the uploads directory. *)
Theorem parent_directory_served (w : world) :
  files w !! cwd w = Some Dir ->
  files w !! uploads_loc w = Some Dir ->
  route_files "/files/.." = Some ".."
  /\ serve_file ".." w
     = (Ok (FileResponse {| Pathlib.absolute := false;
                            Pathlib.parts := ["uploads"; ".."] |}), w)
  /\ Os.locate w {| Pathlib.absolute := false; Pathlib.parts := ["uploads"; ".."] |}
     = Some (cwd w)
  /\ ~ inside_uploads w {| Pathlib.absolute := false;
                           Pathlib.parts := ["uploads"; ".."] |}.
Proof.
  intros Hc Hu.
  assert (Hl : Os.locate w {| Pathlib.absolute := false;
                              Pathlib.parts := ["uploads"; ".."] |}
               = Some (cwd w)).
  { unfold Os.locate. simpl. rewrite Hc.
    change (Os.step (cwd w) "uploads") with (uploads_loc w). rewrite Hu.
    unfold Os.step, uploads_loc. simpl. rewrite List.removelast_last.
    reflexivity. }
  split; [reflexivity|]. split; [|split; [exact Hl|]].
  - unfold serve_file, get_file_path. run. unfold Os.exists_, Os.stat.
    change (Pathlib.truediv UPLOADS_DIR "..")
      with {| Pathlib.absolute := false; Pathlib.parts := ["uploads"; ".."] |}.
    rewrite Hl, Hc. reflexivity.
  - unfold inside_uploads. rewrite (locate_uploads w Hc), Hl.
    intros [k Hk]. apply (f_equal (@List.length _)) in Hk.
    unfold uploads_loc in Hk. rewrite !List.length_app in Hk. simpl in Hk. lia.
Qed.

Lemma parent_directory_served_witness :
  serve_file ".." Sample.srv
  = (Ok (FileResponse {| Pathlib.absolute := false;
                         Pathlib.parts := ["uploads"; ".."] |}), Sample.srv)
  /\ Os.locate Sample.srv {| Pathlib.absolute := false;
                             Pathlib.parts := ["uploads"; ".."] |}
     = Some ["srv"].
Proof.
  destruct (parent_directory_served Sample.srv eq_refl eq_refl)
    as (_ & H1 & H2 & _).
  split; [exact H1|exact H2].
Defined.



(** * [format_file_size] in general *)

Lemma of_int_exact (n : Z) :
  - 2 ^ 53 < n < 2 ^ 53 ->
  Float.of_int n = Ok {| Float.mant := n; Float.expo := 0 |}.
Proof.
  intros Hn. unfold Float.of_int. cbv zeta.
  assert (Hl : Z.log2 (Z.abs n) < 53).
  { destruct (Z.eq_dec (Z.abs n) 0) as [->|Hz]; [reflexivity|].
    apply Z.log2_lt_pow2; lia. }
  destruct (Z.leb_spec (Z.log2 (Z.abs n) + 1) 53); [reflexivity|lia].
Qed.

Lemma string_app_assoc (a b c : string) : (a +:+ b) +:+ c = a +:+ (b +:+ c).
Proof.
  induction a as [|x a IH]; [reflexivity|].
  change (String x ((a +:+ b) +:+ c) = String x (a +:+ (b +:+ c))).
  f_equal. exact IH.
Qed.

(** X15: a size below 1024 bytes is shown as its whole number of bytes with
    [".0 B"]; so is every negative size, with its sign, since the loop only
    divides values of at least 1024. *)
Theorem format_file_size_bytes (n : Z) :
  - 2 ^ 53 < n < 1024 -> n <> 0 ->
  format_file_size n
  = Ok ((if n <? 0 then "-" else "") +:+ pretty (Z.abs n) +:+ ".0 B").
Proof.
  intros Hn Hz. unfold format_file_size.
  destruct (Z.eqb_spec n 0) as [->|_]; [congruence|].
  rewrite of_int_exact by lia.
  cbn [size_loop List.length size_names].
  unfold Float.ge_1024 at 1. cbn [Float.mant Float.expo].
  change (0 <=? 0) with true. cbv iota. change (2 ^ 0) with 1.
  destruct (Z.leb_spec 1024 (n * 1)); [lia|]. cbn [andb].
  unfold Float.format_1f, Float.tenths. cbn [Float.mant Float.expo].
  change (0 <=? 0) with true. cbv iota zeta. change (2 ^ 0) with 1.
  replace (10 * Z.abs n * 1) with (Z.abs n * 10) by lia.
  rewrite Z.div_mul, Z.mod_mul by lia.
  change (Z.to_nat 0) with 0%nat. change (List.nth 0 size_names "") with "B".
  change (pretty 0) with "0".
  rewrite !string_app_assoc. reflexivity.
Qed.

Lemma format_file_size_bytes_witness :
  format_file_size 1023 = Ok "1023.0 B" /\ format_file_size (-2048) = Ok "-2048.0 B".
Proof.
  split.
  - apply (format_file_size_bytes 1023); [vm_compute; split; reflexivity|discriminate].
  - apply (format_file_size_bytes (-2048));
      [vm_compute; split; reflexivity|discriminate].
Defined.

(** X16: for a positive size below [2 ^ 53] the unit is the one of index
    [min(4, log2(n) / 10)]: the largest of B, KB, MB, GB whose value is at
    least 1, and TB for everything from [1024 ^ 4] on; the number shown is
    the size divided by that power of 1024, to one decimal. *)
Theorem format_file_size_unit (n : Z) :
  0 < n < 2 ^ 53 ->
  let k := Z.min 4 (Z.log2 n / 10) in
  1024 ^ k <= n
  /\ (k < 4 -> n < 1024 ^ (k + 1))
  /\ format_file_size n
     = Ok (Float.format_1f {| Float.mant := n; Float.expo := - (10 * k) |}
           +:+ " " +:+ List.nth (Z.to_nat k) size_names "").
Proof.
  intros Hn.
  assert (Hl : 0 <= Z.log2 n < 53).
  { split; [apply Z.log2_nonneg|apply Z.log2_lt_pow2; lia]. }
  assert (Hp : forall b, 0 <= b -> (2 ^ b <= n <-> b <= Z.log2 n)).
  { intros b Hb. apply Z.log2_le_pow2; lia. }
  pose proof (Hp 10 ltac:(lia)) as P1. pose proof (Hp 20 ltac:(lia)) as P2.
  pose proof (Hp 30 ltac:(lia)) as P3. pose proof (Hp 40 ltac:(lia)) as P4.
  change (2 ^ 10) with 1024 in P1. change (2 ^ 20) with 1048576 in P2.
  change (2 ^ 30) with 1073741824 in P3. change (2 ^ 40) with 1099511627776 in P4.
  assert (Hk : Z.log2 n / 10 = 0 /\ Z.log2 n < 10
             \/ Z.log2 n / 10 = 1 /\ 10 <= Z.log2 n < 20
             \/ Z.log2 n / 10 = 2 /\ 20 <= Z.log2 n < 30
             \/ Z.log2 n / 10 = 3 /\ 30 <= Z.log2 n < 40
             \/ 4 <= Z.log2 n / 10 /\ 40 <= Z.log2 n).
  { Z.div_mod_to_equations. lia. }
  unfold format_file_size.
  destruct (Z.eqb_spec n 0) as [->|_]; [lia|].
  rewrite of_int_exact by lia.
  cbn [size_loop List.length size_names].
  unfold Float.ge_1024, Float.div_1024. cbn [Float.mant Float.expo].
  change (0 <=? 0) with true. change (0 <=? 0 - 10) with false.
  change (0 <=? 0 - 10 - 10) with false.
  change (0 <=? 0 - 10 - 10 - 10) with false.
  change (0 <=? 0 - 10 - 10 - 10 - 10) with false. cbv iota.
  change (2 ^ 0) with 1. change (1024 * 2 ^ (- (0 - 10))) with 1048576.
  change (1024 * 2 ^ (- (0 - 10 - 10))) with 1073741824.
  change (1024 * 2 ^ (- (0 - 10 - 10 - 10))) with 1099511627776.
  change (Z.of_nat 5 - 1) with 4.
  change (0 <? 4) with true. change (0 + 1 <? 4) with true.
  change (0 + 1 + 1 <? 4) with true. change (0 + 1 + 1 + 1 <? 4) with true.
  change (0 + 1 + 1 + 1 + 1 <? 4) with false.
  rewrite !andb_true_r, ?andb_false_r.
  destruct Hk as [[Ek Hk]|[[Ek Hk]|[[Ek Hk]|[[Ek Hk]|[Ek Hk]]]]].
  - rewrite Ek. change (Z.min 4 0) with 0.
    destruct (Z.leb_spec 1024 (n * 1)); [lia|].
    change (1024 ^ 0) with 1. change (1024 ^ (0 + 1)) with 1024.
    split; [lia|]. split; [lia|]. reflexivity.
  - rewrite Ek. change (Z.min 4 1) with 1.
    destruct (Z.leb_spec 1024 (n * 1)); [|lia].
    destruct (Z.leb_spec 1048576 n); [lia|].
    change (1024 ^ 1) with 1024. change (1024 ^ (1 + 1)) with 1048576.
    split; [lia|]. split; [lia|]. reflexivity.
  - rewrite Ek. change (Z.min 4 2) with 2.
    destruct (Z.leb_spec 1024 (n * 1)); [|lia].
    destruct (Z.leb_spec 1048576 n); [|lia].
    destruct (Z.leb_spec 1073741824 n); [lia|].
    change (1024 ^ 2) with 1048576. change (1024 ^ (2 + 1)) with 1073741824.
    split; [lia|]. split; [lia|]. reflexivity.
  - rewrite Ek. change (Z.min 4 3) with 3.
    destruct (Z.leb_spec 1024 (n * 1)); [|lia].
    destruct (Z.leb_spec 1048576 n); [|lia].
    destruct (Z.leb_spec 1073741824 n); [|lia].
    destruct (Z.leb_spec 1099511627776 n); [lia|].
    change (1024 ^ 3) with 1073741824. change (1024 ^ (3 + 1)) with 1099511627776.
    split; [lia|]. split; [lia|]. reflexivity.
  - replace (Z.min 4 (Z.log2 n / 10)) with 4 by lia.
    destruct (Z.leb_spec 1024 (n * 1)); [|lia].
    destruct (Z.leb_spec 1048576 n); [|lia].
    destruct (Z.leb_spec 1073741824 n); [|lia].
    destruct (Z.leb_spec 1099511627776 n); [|lia].
    change (1024 ^ 4) with 1099511627776.
    split; [lia|]. split; [lia|]. reflexivity.
Qed.

Lemma format_file_size_unit_witness :
  format_file_size 1048575 = Ok "1024.0 KB"
  /\ format_file_size (2 ^ 52) = Ok "4096.0 TB".
Proof.
  split.
  - apply (format_file_size_unit 1048575). vm_compute. split; reflexivity.
  - apply (format_file_size_unit (2 ^ 52)). vm_compute. split; reflexivity.
Defined.

(** * Statistics and listing together *)

(** A returned record carries the clock's time and is the new last row. *)
Lemma returned_record_fields (e : env) (u : fastapi.UploadFile) (w w' : world)
      (r : UploadedFile) :
  save_uploaded_file e u w = (Ok (Some r), w') ->
  upload_timestamp r = utcnow e /\ rows w' = rows w ++ [r].
Proof.
  intros H. pose proof (save_uploaded_file_table e u w) as T.
  rewrite H in T. cbn [fst snd] in T.
  destruct T as [_ [(_ & _ & Hno)|(filename & _ & _ & _ & Hr & Hrows & _)]];
    [exfalso; exact (Hno r eq_refl)|].
  injection Hr as ->. split; [reflexivity|exact Hrows].
Qed.

Lemma sum_sizes_perm (l1 l2 : list UploadedFile) :
  Permutation l1 l2 ->
  List.fold_right Z.add 0 (List.map file_size l1)
  = List.fold_right Z.add 0 (List.map file_size l2).
Proof. induction 1; simpl; lia. Qed.

(** X19: the statistics agree with the listing, whatever the engine: the
    number of files is the length of the listing and the total size is the
    sum of the sizes listed. *)
Theorem stats_agree_with_listing (E : Sql.Engine) (L : Sql.EngineLaws E) (w : world) :
  exists l,
    get_all_uploaded_files w = (Ok l, w)
    /\ get_file_stats w
       = (Ok {| total_files := Z.of_nat (List.length l);
                total_size_bytes := List.fold_right Z.add 0 (List.map file_size l) |},
          w).
Proof.
  eexists. split; [reflexivity|]. unfold get_file_stats.
  pose proof (Sql.order_by_desc_perm upload_timestamp (rows w)) as HP.
  rewrite (Permutation_length HP), (sum_sizes_perm _ _ HP). reflexivity.
Qed.

Lemma stats_agree_with_listing_witness :
  exists l,
    @get_all_uploaded_files Sql.later_first Sample.twice = (Ok l, Sample.twice)
    /\ get_file_stats Sample.twice
       = (Ok {| total_files := Z.of_nat (List.length l);
                total_size_bytes := List.fold_right Z.add 0 (List.map file_size l) |},
          Sample.twice).
Proof.
  exact (stats_agree_with_listing Sql.later_first later_first_laws Sample.twice).
Defined.

(** X20: an upload stamped later than every record of the table is the
    first entry of the next listing, whatever the engine. *)
Theorem latest_upload_listed_first (E : Sql.Engine) (L : Sql.EngineLaws E)
        (e : env) (u : fastapi.UploadFile) (w w' : world) (r : UploadedFile) :
  save_uploaded_file e u w = (Ok (Some r), w') ->
  Forall (fun x => upload_timestamp x < utcnow e) (rows w) ->
  exists rest, get_all_uploaded_files w' = (Ok (r :: rest), w').
Proof.
  intros H Hlate.
  destruct (returned_record_fields e u w w' r H) as (Ht & Hrows).
  unfold get_all_uploaded_files.
  pose proof (Sql.order_by_desc_perm upload_timestamp (rows w')) as HP.
  pose proof (Sql.order_by_desc_sorted upload_timestamp (rows w')) as HS.
  destruct (Sql.order_by_desc upload_timestamp (rows w')) as [|h rest].
  - exfalso. rewrite Hrows in HP. apply Permutation_nil in HP.
    destruct (rows w); discriminate.
  - exists rest. do 3 f_equal.
    assert (Hr : In r (h :: rest)).
    { eapply Permutation_in; [symmetry; exact HP|].
      rewrite Hrows. apply List.in_app_iff. right. left. reflexivity. }
    destruct Hr as [Hr|Hr]; [exact Hr|].
    inversion HS as [|? ? _ Hh]; subst.
    rewrite List.Forall_forall in Hh. specialize (Hh r Hr). cbv beta in Hh.
    assert (Hin : In h (rows w ++ [r])).
    { rewrite <- Hrows. eapply Permutation_in; [exact HP|left; reflexivity]. }
    apply List.in_app_iff in Hin as [Hin|[Hin|[]]]; [|congruence].
    rewrite List.Forall_forall in Hlate. specialize (Hlate h Hin). lia.
Qed.

Lemma latest_upload_listed_first_witness :
  exists rest,
    @get_all_uploaded_files Sql.earlier_first
      (snd (save_uploaded_file (Sample.call 3 9) Sample.hello Sample.twice))
    = (Ok (stored_record (Sample.call 3 9) "test.txt" (Some "text/plain")
                         (fastapi.file Sample.hello) (Some 3) :: rest),
       snd (save_uploaded_file (Sample.call 3 9) Sample.hello Sample.twice)).
Proof.
  apply (latest_upload_listed_first Sql.earlier_first earlier_first_laws
           (Sample.call 3 9) Sample.hello Sample.twice).
  - vm_compute. reflexivity.
  - vm_compute. repeat constructor.
Defined.

Lemma failed_unlink_escapes_witness :
  let e := {| urandom := 0; utcnow := 7; guess_type := fun _ => None;
              write_fault := false; db_fault := true; unlink_fault := true |} in
  exists w',
    save_uploaded_file e Sample.hello Sample.srv = (Raise OSError, w')
    /\ rows w' = rows Sample.srv
    /\ Os.read_bytes w' (Pathlib.truediv UPLOADS_DIR
                           (generate_unique_filename e "test.txt"))
       = Some (fastapi.file Sample.hello).
Proof.
  intros e.
  apply (failed_unlink_escapes e Sample.hello Sample.srv "test.txt");
    try reflexivity.
  - vm_compute. discriminate.
  - split; [reflexivity|]. split; [intros c|]; vm_compute; discriminate.
Defined.

Lemma name_collision_witness :
  let w := snd (save_uploaded_file (Sample.call 1 7) Sample.hello Sample.srv) in
  Os.read_bytes w (Pathlib.truediv UPLOADS_DIR
                     (generate_unique_filename (Sample.call 1 8) "test.txt"))
  = Some (fastapi.file Sample.hello)
  /\ exists w',
       save_uploaded_file (Sample.call 1 8) Sample.unnamed_txt w = (Ok None, w')
       /\ Sql.has_stored (generate_unique_filename (Sample.call 1 8) "test.txt")
                         (rows w') = true
       /\ Os.stat w' (Pathlib.truediv UPLOADS_DIR
                        (generate_unique_filename (Sample.call 1 8) "test.txt"))
          = None.
Proof.
  intros w. split; [vm_compute; reflexivity|].
  apply (name_collision (Sample.call 1 8) Sample.unnamed_txt w "test.txt");
    try reflexivity.
  - vm_compute. discriminate.
  - split; [reflexivity|]. split; [intros c|]; vm_compute; discriminate.
Defined.
